(** * Verification of the custom-metric pipeline (wxgov-custom-metric)

    Shallow embedding of
      - [src/wos/common.py]           (field resolver, watermark, record fetcher, sink)
      - [src/wos/custom_evaluator.py] (aggregation, evaluation engine)
      - [src/utils/async_threading.py], [src/main.py] (worker wrapper, HTTP handler)

    Python values are a small JSON-like inductive type, exceptions are
    data, and every function that talks to an external service lives in
    a writer/error monad that records the service calls it makes. *)

From Stdlib Require Import Floats.PrimFloat Numbers.Cyclic.Int63.Uint63.
From Stdlib Require Import Strings.String Strings.Ascii ZArith Lia.
From stdpp Require Import base option list gmap sets strings sorting.

Open Scope string_scope.
Set Warnings "-register-all,-clear-no-such-hyp".

(* ===================================================================== *)
(** * Python values and exceptions *)
(* ===================================================================== *)

(** JSON-shaped Python objects, as the service SDKs hand them out
    ([.to_dict()], [.result], [request.json()]).  A [dict] keeps its
    insertion order, as Python's does. *)
Inductive pyval : Type :=
| VNone
| VBool (b : bool)
| VInt (n : Z)
| VFloat (f : float)
| VStr (s : string)
| VList (xs : list pyval)
| VDict (kvs : list (string * pyval)).

(** The exception classes the code raises, catches or lets through.
    [OtherError] stands for any class raised by a collaborator that is
    not a subclass of the named ones (a transport failure, say). *)
Inductive exn_class : Type :=
| IndexError
| AttributeError
| KeyError
| TypeError
| UnboundLocalError
| RuntimeError
| OtherError (class_name : string).

(** An exception value: a Python exception with its message, or
    FastAPI's [HTTPException(status_code, detail)]. *)
Inductive exn : Type :=
| PyExn (c : exn_class) (msg : string)
| HTTPException (status_code : Z) (detail : string).

(** [str(exc)] *)
Definition str_exn (e : exn) : string :=
  match e with
  | PyExn _ msg => msg
  | HTTPException _ detail => detail
  end.

Inductive result (A : Type) : Type :=
| Ok (a : A)
| Raise (e : exn).
Arguments Ok {A} a.
Arguments Raise {A} e.

(* ===================================================================== *)
(** * Insertion-ordered dictionaries *)
(* ===================================================================== *)

Module Dict.
Section ops.
Context {V : Type}.

(** [d.get(k)] on the association list behind a [dict];
    [None] when the key is absent. *)
Fixpoint get (k : string) (d : list (string * V)) : option V :=
  match d with
  | [] => None
  | (k', v) :: d' => if String.eqb k k' then Some v else get k d'
  end.

(** [d[k] = v]: overwrite in place, or append a new key at the end. *)
Fixpoint set (k : string) (v : V) (d : list (string * V)) : list (string * V) :=
  match d with
  | [] => [(k, v)]
  | (k', v') :: d' =>
      if String.eqb k k' then (k', v) :: d' else (k', v') :: set k v d'
  end.

Definition keys (d : list (string * V)) : list string := map fst d.

(** [k in d] *)
Definition mem (k : string) (d : list (string * V)) : bool :=
  match get k d with Some _ => true | None => false end.
End ops.
End Dict.

(* ===================================================================== *)
(** * Dynamic operations on Python values *)
(* ===================================================================== *)

Definition type_name (v : pyval) : string :=
  match v with
  | VNone => "NoneType"
  | VBool _ => "bool"
  | VInt _ => "int"
  | VFloat _ => "float"
  | VStr _ => "str"
  | VList _ => "list"
  | VDict _ => "dict"
  end.

Definition no_attribute (v : pyval) (attr : string) : exn :=
  PyExn AttributeError
        ("'" ++ type_name v ++ "' object has no attribute '" ++ attr ++ "'").

(** [v.get(k, default)]: only a [dict] has [.get]. *)
Definition py_get (v : pyval) (k : string) (default : pyval) : result pyval :=
  match v with
  | VDict kvs => Ok (match Dict.get k kvs with Some x => x | None => default end)
  | _ => Raise (no_attribute v "get")
  end.

(** [v[k]] with a string key. *)
Definition py_getitem (v : pyval) (k : string) : result pyval :=
  match v with
  | VDict kvs =>
      match Dict.get k kvs with
      | Some x => Ok x
      | None => Raise (PyExn KeyError ("'" ++ k ++ "'"))
      end
  | VList _ => Raise (PyExn TypeError "list indices must be integers or slices, not str")
  | VStr _ => Raise (PyExn TypeError "string indices must be integers, not 'str'")
  | _ => Raise (PyExn TypeError ("'" ++ type_name v ++ "' object is not subscriptable"))
  end.

Definition chars_of (s : string) : list string :=
  map (fun a => String a EmptyString) (list_ascii_of_string s).

(** The items a [for] loop (or [set(...)]) sees when it iterates [v]. *)
Definition py_iter (v : pyval) : result (list pyval) :=
  match v with
  | VList xs => Ok xs
  | VDict kvs => Ok (map (fun kv => VStr (fst kv)) kvs)
  | VStr s => Ok (map VStr (chars_of s))
  | _ => Raise (PyExn TypeError ("'" ++ type_name v ++ "' object is not iterable"))
  end.

(** Truth value of an object ([not v], [v or None]). *)
Definition truthy (v : pyval) : bool :=
  match v with
  | VNone => false
  | VBool b => b
  | VInt n => negb (Z.eqb n 0)
  | VFloat f => negb (PrimFloat.eqb f 0%float)
  | VStr s => negb (String.eqb s "")
  | VList xs => match xs with [] => false | _ => true end
  | VDict kvs => match kvs with [] => false | _ => true end
  end.

(** [v == s] for a string literal [s]. *)
Definition py_eq_str (v : pyval) (s : string) : bool :=
  match v with
  | VStr s' => String.eqb s' s
  | _ => false
  end.

(** [isinstance(v, list)] *)
Definition is_list (v : pyval) : bool :=
  match v with VList _ => true | _ => false end.

(** [k in v] for a string [k]. *)
Definition py_in (k : string) (v : pyval) : result bool :=
  match v with
  | VDict kvs => Ok (Dict.mem k kvs)
  | VList xs => Ok (existsb (fun x => py_eq_str x k) xs)
  | VStr s => Ok (match index 0 k s with Some _ => true | None => false end)
  | _ => Raise (PyExn TypeError
                  ("argument of type '" ++ type_name v ++ "' is not iterable"))
  end.

(* ===================================================================== *)
(** * Calls to external services, and the monad that records them *)
(* ===================================================================== *)

(** The metric objects [run_evaluator] builds, in the order it lists them. *)
Inductive Metric : Type :=
| AnswerRelevanceMetric
| TextReadingEaseMetric
| SocialBiasMetric
| JailbreakMetric
| TextGradeLevelMetric.

(** [GenAIConfiguration(input_fields, context_fields, output_fields,
    reference_fields)] *)
Record GenAIConfiguration : Type := {
  input_fields : list string;
  config_context_fields : list string;
  output_fields : list string;
  reference_fields : list string
}.

(** [pd.DataFrame(rows)]: the rows it was built from, each a [dict]. *)
Record DataFrame : Type := { df_rows : list (list (string * pyval)) }.

(** One entry of [result.to_dict()]: [record.get("name")] and
    [record.get("value")], [None] when the key is missing or null. *)
Record MetricSample : Type := {
  name : option string;
  value : option float
}.

(** What the code asks of the outside world, in the order it asks. *)
Inductive call : Type :=
| CallGetClient
| CallSubscriptionsGet (subscription_id : pyval)
| CallListRuns (monitor_instance_id : pyval)
| CallListRecords (data_set_id start : pyval) (limit : Z)
| CallSetEventLoopPolicy
| CallNewEventLoop
| CallNewEvaluator (configuration : GenAIConfiguration)
| CallEvaluate (data : DataFrame) (metrics : list Metric)
| CallNewMetricsManager
| CallStoreMetricData (monitor_instance_id run_id : pyval)
                      (request_records : list (string * float)).

(** A computation: the calls it made, and how it ended. *)
Definition M (A : Type) : Type := list call * result A.

Definition ret {A} (a : A) : M A := ([], Ok a).
Definition raise {A} (e : exn) : M A := ([], Raise e).
Definition lift {A} (r : result A) : M A := ([], r).

Definition bind {A B} (m : M A) (f : A -> M B) : M B :=
  match m with
  | (t, Ok a) => let '(t', r) := f a in ((t ++ t')%list, r)
  | (t, Raise e) => (t, Raise e)
  end.

(** A service call: log it, and take the service's answer. *)
Definition perform {A} (c : call) (answer : result A) : M A := ([c], answer).

(** [try: m  except <classes>: h]: [h e] is [None] when the clause does
    not match [e], which then propagates. *)
Definition try_except {A} (m : M A) (h : exn -> option (M A)) : M A :=
  match m with
  | (t, Ok a) => (t, Ok a)
  | (t, Raise e) =>
      match h e with
      | Some k => let '(t', r) := k in ((t ++ t')%list, r)
      | None => (t, Raise e)
      end
  end.

Definition trace {A} (m : M A) : list call := fst m.
Definition outcome {A} (m : M A) : result A := snd m.

Declare Scope py_scope.
Delimit Scope py_scope with py.
Notation "'let*' x ':=' m 'in' k" := (bind m (fun x => k))
  (at level 10, x name, m at level 100, k at level 200) : py_scope.
Notation "'run' m 'in' k" := (bind m (fun _ => k))
  (at level 10, m at level 100, k at level 200) : py_scope.
Open Scope py_scope.

(** [for x in xs: ...] collecting results, stopping at the first exception. *)
Fixpoint mapR {A B} (f : A -> result B) (xs : list A) : result (list B) :=
  match xs with
  | [] => Ok []
  | x :: xs' =>
      match f x with
      | Raise e => Raise e
      | Ok y =>
          match mapR f xs' with
          | Raise e => Raise e
          | Ok ys => Ok (y :: ys)
          end
      end
  end.

(** [[x for x in xs if p(x)]] where the test itself may raise. *)
Fixpoint filterR {A} (p : A -> result bool) (xs : list A) : result (list A) :=
  match xs with
  | [] => Ok []
  | x :: xs' =>
      match p x with
      | Raise e => Raise e
      | Ok b =>
          match filterR p xs' with
          | Raise e => Raise e
          | Ok ys => Ok (if b then x :: ys else ys)
          end
      end
  end.

Definition bindR {A B} (r : result A) (f : A -> result B) : result B :=
  match r with
  | Ok a => f a
  | Raise e => Raise e
  end.

(* ===================================================================== *)
(** * [src/wos/custom_evaluator.py]: aggregation *)
(* ===================================================================== *)

(** Reading [d[k]] on a [defaultdict]: the factory's value for a new key. *)
Definition dd_get {V} (default : V) (k : string) (d : list (string * V)) : V :=
  match Dict.get k d with Some v => v | None => default end.

(** The [int] count as the [float] that [/] divides by. *)
Definition float_of_count (n : Z) : float := PrimFloat.of_uint63 (Uint63.of_Z n).

(** One turn of the loop over [records]: skip a sample with no name or
    no value, else add to the sum and the count of its name. *)
Definition calc_mean_step
    (acc : list (string * float) * list (string * Z)) (record : MetricSample)
    : list (string * float) * list (string * Z) :=
  let '(metric_sums, metric_counts) := acc in
  match name record, value record with
  | Some name, Some value =>
      (Dict.set name (PrimFloat.add (dd_get 0%float name metric_sums) value) metric_sums,
       Dict.set name (dd_get 0%Z name metric_counts + 1)%Z metric_counts)
  | _, _ => acc
  end.

(** The closing dict comprehension of [_calc_mean]. *)
Definition mean_comprehension
    (metric_sums : list (string * float)) (metric_counts : list (string * Z))
    : list (string * float) :=
  fold_left
    (fun out name =>
       if (0 <? dd_get 0%Z name metric_counts)%Z
       then Dict.set name
              (PrimFloat.div (dd_get 0%float name metric_sums)
                             (float_of_count (dd_get 0%Z name metric_counts)))
              out
       else out)
    (Dict.keys metric_sums) [].

Definition _calc_mean (records : list MetricSample) : list (string * float) :=
  let '(metric_sums, metric_counts) := fold_left calc_mean_step records ([], []) in
  mean_comprehension metric_sums metric_counts.

(** ** What the specification says the aggregation is *)

(** The values of the samples that bear the name [n] and have a value. *)
Definition values_named (n : string) (records : list MetricSample) : list float :=
  flat_map
    (fun r =>
       match name r, value r with
       | Some n', Some v => if String.eqb n' n then [v] else []
       | _, _ => []
       end)
    records.

(** Arithmetic mean in binary64: the running sum from [0.0], left to
    right, divided by the number of values. *)
Definition arithmetic_mean (vs : list float) : float :=
  PrimFloat.div (fold_left PrimFloat.add vs 0%float)
                (float_of_count (Z.of_nat (length vs))).

(** The sample list of the specification's example; [0.2] and [0.8] are
    the binary64 values Python reads those literals as. *)
Definition example_samples : list MetricSample :=
  [ {| name := Some "bias"; value := Some 0x1.999999999999ap-3%float |};
    {| name := Some "bias"; value := Some 0x1.999999999999ap-1%float |};
    {| name := Some "relevance"; value := Some 1%float |} ].

(** [record.get("name") is None or record.get("value") is None] negated. *)
Definition is_complete (r : MetricSample) : bool :=
  match name r, value r with
  | Some _, Some _ => true
  | _, _ => false
  end.

(* ===================================================================== *)
(** * The outside world *)
(* ===================================================================== *)

(** The answers of the external collaborators.  Each is a function of
    the arguments the code passes; [Raise] is the service failing. *)
Record World : Type := {
  (** [APIClient(authenticator=IAMAuthenticator(apikey=API_KEY))] *)
  new_client : result unit;
  (** [wos_client.subscriptions.get(subscription_id=...).result.to_dict()] *)
  subscriptions_get : pyval -> result pyval;
  (** [wos_client.monitor_instances.list_runs(...).result.to_dict()] *)
  list_runs : pyval -> result pyval;
  (** [wos_client.data_sets.get_list_of_records(data_set_id, start, limit).result] *)
  get_list_of_records : pyval -> pyval -> Z -> result pyval;
  (** [MetricsEvaluator(api_client=GovAPIClient(...), configuration=config)] *)
  new_evaluator : GenAIConfiguration -> result unit;
  (** [.evaluate(data=data, metrics=metrics)] followed by [.to_dict()] *)
  evaluate : GenAIConfiguration -> DataFrame -> list Metric -> result (list MetricSample);
  (** [WatsonxCustomMetricsManager(api_key=API_KEY)] *)
  new_metrics_manager : result unit;
  (** [metric_manager.store_metric_data(monitor_instance_id, run_id, request_records)] *)
  store_metric_data : pyval -> pyval -> list (string * float) -> result unit
}.

(* ===================================================================== *)
(** * Sets of field names and [sorted] *)
(* ===================================================================== *)

(** Python orders [str] by code point; on the bytes of a UTF-8 string
    that is the lexicographic order of [String.leb]. *)
Definition str_le (a b : string) : Prop := String.leb a b = true.

#[global] Instance str_le_dec : RelDecision str_le.
Proof. intros a b. unfold str_le. apply _. Defined.

(** [sorted(s)] for a set of strings. *)
Definition sorted (s : gset string) : list string :=
  merge_sort str_le (elements s).

(** An element of a field list as a member of a [set]: field names are
    strings (the SDK types these lists as lists of [str]); a [list] or
    [dict] element is unhashable, and any other element is outside the
    model, which raises [TypeError] for it as well. *)
Definition as_field_name (v : pyval) : result string :=
  match v with
  | VStr s => Ok s
  | VList _ | VDict _ =>
      Raise (PyExn TypeError ("unhashable type: '" ++ type_name v ++ "'"))
  | _ => Raise (PyExn TypeError ("field name expected, got '" ++ type_name v ++ "'"))
  end.

(** [set(v)] *)
Definition py_set (v : pyval) : result (gset string) :=
  bindR (py_iter v) (fun items =>
  bindR (mapR as_field_name items) (fun names =>
  Ok (list_to_set names))).

(* ===================================================================== *)
(** * [src/wos/common.py] *)
(* ===================================================================== *)

Definition RAG : string := "retrieval_augmented_generation".

(** The [dict] that [extract_prompt_fields] returns.  The key
    ["context_fields"] is present only on the RAG branch: [None] is the
    key being absent. *)
Record AssetFieldProfile : Type := {
  problem_type : pyval;
  feature_fields : list string;
  context_fields : option (list string);
  fields : list string
}.

Section common.
Context (W : World).

Definition _get_client : M unit := perform CallGetClient (new_client W).

Definition extract_prompt_fields (subscription_id : pyval) : M AssetFieldProfile :=
  run _get_client in
  let* payload := perform (CallSubscriptionsGet subscription_id)
                     (subscriptions_get W subscription_id) in
  let* parsed := try_except
    (let* entity := lift (py_getitem payload "entity") in
     let* asset := lift (py_get entity "asset" (VDict [])) in
     let* asset_props := lift (py_get entity "asset_properties" (VDict [])) in
     let* problem_type := lift (py_get asset "problem_type" VNone) in
     ret (asset_props, problem_type))
    (fun exc =>
       Some (raise (PyExn RuntimeError "Invalid subscription payload structure"))) in
  let asset_props := fst parsed in
  let problem_type := snd parsed in
  (* Always extract feature_fields *)
  let* ff := lift (py_get asset_props "feature_fields" (VList [])) in
  let* feature_fields := lift (py_set ff) in
  (* Only extract context_fields for RAG *)
  if py_eq_str problem_type RAG then
    let* cf := lift (py_get asset_props "context_fields" (VList [])) in
    let* context_fields := lift (py_set cf) in
    let feature_fields := feature_fields ∖ context_fields in
    let all_fields := feature_fields ∪ context_fields in
    ret {| problem_type := problem_type;
           feature_fields := sorted feature_fields;
           context_fields := Some (sorted context_fields);
           fields := sorted all_fields |}
  else
    ret {| problem_type := problem_type;
           feature_fields := sorted feature_fields;
           context_fields := None;
           fields := sorted feature_fields |}.

(** [r.get("entity", {}).get("status", {}).get("state") == "finished"] *)
Definition run_is_finished (r : pyval) : result bool :=
  bindR (py_get r "entity" (VDict [])) (fun entity =>
  bindR (py_get entity "status" (VDict [])) (fun status =>
  bindR (py_get status "state" VNone) (fun state =>
  Ok (py_eq_str state "finished")))).

(** The body of the [try] block of [get_last_run_date]. *)
Definition get_last_run_date_body (monitor_instance_id : pyval) : M pyval :=
  run _get_client in
  let* runs_dict := perform (CallListRuns monitor_instance_id)
                       (list_runs W monitor_instance_id) in
  let* runs := lift (py_getitem runs_dict "runs") in
  let* items := lift (py_iter runs) in
  let* finished_runs := lift (filterR run_is_finished items) in
  match finished_runs with
  | [] => ret (VStr "")
  | first :: _ =>
      let* metadata := lift (py_get first "metadata" (VDict [])) in
      lift (py_get metadata "created_at" (VStr ""))
  end.

(** [except (IndexError, AttributeError): return ""] *)
Definition last_run_date_handler (e : exn) : option (M pyval) :=
  match e with
  | PyExn IndexError _ | PyExn AttributeError _ => Some (ret (VStr ""))
  | _ => None
  end.

Definition get_last_run_date (monitor_instance_id : pyval) : M pyval :=
  try_except (get_last_run_date_body monitor_instance_id) last_run_date_handler.

(** The dict comprehension
    [{field: values.get(field) for field in fields if field in values}],
    continued from the partial [row]. *)
Fixpoint project_row (fields : list string) (values : pyval)
    (row : list (string * pyval)) : result (list (string * pyval)) :=
  match fields with
  | [] => Ok row
  | field :: rest =>
      bindR (py_in field values) (fun present =>
      if present
      then bindR (py_get values field VNone) (fun v =>
           project_row rest values (Dict.set field v row))
      else project_row rest values row)
  end.

(** [record.get("entity", {}).get("values", {})] *)
Definition record_values (record : pyval) : result pyval :=
  bindR (py_get record "entity" (VDict [])) (fun entity =>
  py_get entity "values" (VDict [])).

(** One turn of the loop over the records. *)
Definition build_row (fields : list string) (record : pyval)
    : result (list (string * pyval)) :=
  bindR (record_values record) (fun values =>
  bindR (project_row fields values []) (fun row =>
  bindR (py_get values "generated_text" VNone) (fun generated_text =>
  Ok (Dict.set "generated_text" generated_text row)))).

(** [start_date or None] *)
Definition or_none (v : pyval) : pyval := if truthy v then v else VNone.

Definition get_payload_data
    (payload_dataset_id monitor_instance_id : pyval)
    (asset_properties : AssetFieldProfile) : M DataFrame :=
  run _get_client in
  let* start_date := get_last_run_date monitor_instance_id in
  let start_date := or_none start_date in
  let* data := perform (CallListRecords payload_dataset_id start_date 500)
                  (get_list_of_records W payload_dataset_id start_date 500) in
  let* records := lift (py_get data "records" (VList [])) in
  let* items := lift (py_iter records) in
  let* rows := lift (mapR (build_row (fields asset_properties)) items) in
  ret {| df_rows := rows |}.

Definition store_metrics (monitor_instance_id run_id : pyval)
    (metrics : list (string * float)) : M unit :=
  try_except
    (run perform CallNewMetricsManager (new_metrics_manager W) in
     perform (CallStoreMetricData monitor_instance_id run_id metrics)
             (store_metric_data W monitor_instance_id run_id metrics))
    (fun exc => Some (raise (PyExn RuntimeError "Failed to store metrics data"))).

End common.

(* ===================================================================== *)
(** * [src/wos/custom_evaluator.py]: the evaluator entry point *)
(* ===================================================================== *)

(** The column labels of [pd.DataFrame(rows)]: every key of every row. *)
Definition df_columns (data : DataFrame) : list string :=
  remove_dups (flat_map Dict.keys (df_rows data)).

(** [data.empty]: the frame has no rows or no columns. *)
Definition df_empty (data : DataFrame) : bool :=
  (length (df_rows data) =? 0)%nat || (length (df_columns data) =? 0)%nat.

(** [asset_properties.get("context_fields", [])] *)
Definition get_context_fields (asset_properties : AssetFieldProfile) : list string :=
  match context_fields asset_properties with
  | Some cf => cf
  | None => []
  end.

(** The [config = GenAIConfiguration(...)] statement of [run_evaluator]. *)
Definition evaluator_config (asset_properties : AssetFieldProfile) : GenAIConfiguration :=
  {| input_fields := feature_fields asset_properties;
     config_context_fields :=
       if py_eq_str (problem_type asset_properties) RAG
       then get_context_fields asset_properties
       else [];
     output_fields := ["generated_text"];
     reference_fields := [] |}.

Section custom_evaluator.
Context (W : World).

Definition run_evaluator (data : DataFrame) (asset_properties : AssetFieldProfile)
    : M (list (string * float)) :=
  if df_empty data then ret []
  else
    let metrics :=
      [ AnswerRelevanceMetric; TextReadingEaseMetric; SocialBiasMetric;
        JailbreakMetric; TextGradeLevelMetric ] in
    let config := evaluator_config asset_properties in
    run perform (CallNewEvaluator config) (new_evaluator W config) in
    let* result_dict := perform (CallEvaluate data metrics)
                                (evaluate W config data metrics) in
    match result_dict with
    | [] => ret []
    | _ => ret (_calc_mean result_dict)
    end.

End custom_evaluator.

(* ===================================================================== *)
(** * [src/utils/async_threading.py] *)
(* ===================================================================== *)

(** [run_in_thread(func, *args)]: install the default loop policy and a
    new event loop, then run the job. *)
Definition run_in_thread {A} (job : M A) : M A :=
  run perform CallSetEventLoopPolicy (Ok tt) in
  run perform CallNewEventLoop (Ok tt) in
  job.

(* ===================================================================== *)
(** * [src/main.py]: the route [POST /compute/custom_metric] *)
(* ===================================================================== *)

(** [JSONResponse(content=..., status_code=...)] *)
Record Response : Type := JSONResponse {
  content : pyval;
  response_status : Z
}.

(** The inbound request: what [await request.json()] gives. *)
Record Request : Type := { json : result pyval }.

(** [len(v) == 0], read only once [v] is known to be a list. *)
Definition len_is_zero (v : pyval) : bool :=
  match v with
  | VList [] => true
  | _ => false
  end.

(** [v[0]] *)
Definition py_first (v : pyval) : result pyval :=
  match v with
  | VList (x :: _) => Ok x
  | VList [] => Raise (PyExn IndexError "list index out of range")
  | VStr s =>
      match chars_of s with
      | c :: _ => Ok (VStr c)
      | [] => Raise (PyExn IndexError "string index out of range")
      end
  | VDict kvs => Raise (PyExn KeyError "0")
  | _ => Raise (PyExn TypeError ("'" ++ type_name v ++ "' object is not subscriptable"))
  end.

(** Reading a local name of the running function: a name that no
    executed statement has bound raises [UnboundLocalError]. *)
Definition load_local (var : string) (binding : option exn) : result exn :=
  match binding with
  | Some e => Ok e
  | None =>
      Raise (PyExn UnboundLocalError
               ("cannot access local variable '" ++ var
                ++ "' where it is not associated with a value"))
  end.

Definition success_content : pyval :=
  VDict [("predictions", VList [VDict [("values", VList [VStr "success"])]])].

Definition failure_content (cause : string) : pyval :=
  VDict [("predictions", VList []); ("errors", VList [VStr cause])].

Section main.
Context (W : World).

(** First [try]: build the evaluation payload. *)
Definition prepare_stage (subscription_id payload_dataset_id monitor_inst_id : pyval)
    : M (AssetFieldProfile * DataFrame) :=
  let* prompt_properties := extract_prompt_fields W subscription_id in
  let* payload_data :=
    get_payload_data W payload_dataset_id monitor_inst_id prompt_properties in
  ret (prompt_properties, payload_data).

(** Second [try]:
    [await loop.run_in_executor(executor, run_in_thread, run_evaluator,
    payload_data, prompt_properties)], as seen by the awaiting handler:
    the job runs on the worker and its result or exception comes back. *)
Definition evaluate_stage (payload_data : DataFrame)
    (prompt_properties : AssetFieldProfile) : M (list (string * float)) :=
  run_in_thread (run_evaluator W payload_data prompt_properties).

Definition compute_custom_metric (request : Request) : M Response :=
  let* request_body :=
    try_except (lift (json request))
      (fun _ => Some (raise (HTTPException 400 "Invalid JSON payload."))) in
  let* input_data := lift (py_get request_body "input_data" VNone) in
  if negb (truthy input_data) || negb (is_list input_data) || len_is_zero input_data
  then
    raise (HTTPException 400
             "'input_data' field is required and must be a non-empty list.")
  else
    let* first := lift (py_first input_data) in
    let* data := lift (py_get first "values" VNone) in
    let* subscription_id := lift (py_get data "subscription_id" VNone) in
    let* monitor_inst_id := lift (py_get data "custom_monitor_instance_id" VNone) in
    let* payload_dataset_id := lift (py_get data "payload_dataset_id" VNone) in
    let* run_id := lift (py_get data "custom_monitor_run_id" VNone) in
    (* [exc] is bound only inside the two [except ... as exc] clauses
       below, each of which leaves the function through [raise]. *)
    let exc : option exn := None in
    let* prepared :=
      try_except (prepare_stage subscription_id payload_dataset_id monitor_inst_id)
        (fun exc => Some (raise (HTTPException 500 (str_exn exc)))) in
    let prompt_properties := fst prepared in
    let payload_data := snd prepared in
    let* custom_metrics :=
      try_except (evaluate_stage payload_data prompt_properties)
        (fun exc => Some (raise (HTTPException 500 (str_exn exc)))) in
    let* returned :=
      try_except
        (run store_metrics W monitor_inst_id run_id custom_metrics in ret None)
        (fun ex =>
           Some (let* cause := lift (load_local "exc" exc) in
                 ret (Some (JSONResponse (failure_content (str_exn cause)) 500)))) in
    match returned with
    | Some response => ret response
    | None => ret (JSONResponse success_content 200)
    end.

End main.

(* ===================================================================== *)
(** * Well-formed service payloads, as the collaborator interfaces
      describe them *)
(* ===================================================================== *)

(** A subscription as the registry returns it:
    [{entity: {asset: {problem_type}, asset_properties: {feature_fields,
    context_fields}}}]. *)
Definition subscription_payload (problem_type : pyval)
    (feature_fields context_fields : list string) : pyval :=
  VDict
    [("entity",
      VDict
        [("asset", VDict [("problem_type", problem_type)]);
         ("asset_properties",
          VDict [("feature_fields", VList (map VStr feature_fields));
                 ("context_fields", VList (map VStr context_fields))])])].

(** A run of a monitor instance: its lifecycle state and its creation
    time, either of which the registry may leave out. *)
Record Run : Type := {
  run_state : option string;
  run_created_at : option string
}.

Definition optional_entry (k : string) (v : option string) : list (string * pyval) :=
  match v with
  | Some s => [(k, VStr s)]
  | None => []
  end.

Definition run_to_py (r : Run) : pyval :=
  VDict
    [("metadata", VDict (optional_entry "created_at" (run_created_at r)));
     ("entity", VDict [("status", VDict (optional_entry "state" (run_state r)))])].

Definition runs_payload (runs : list Run) : pyval :=
  VDict [("runs", VList (map run_to_py runs))].

Definition finished (r : Run) : bool :=
  match run_state r with
  | Some s => String.eqb s "finished"
  | None => false
  end.



(** An absent watermark: a value that [get_payload_data] reads as "no
    start date". *)
Definition absent (r : result pyval) : Prop :=
  match r with
  | Ok v => truthy v = false
  | Raise _ => False
  end.

(** The payload store keeps to the [limit] it is asked for. *)
Definition honours_limit (W : World) : Prop :=
  forall data_set_id start limit data records items,
    (0 <= limit)%Z ->
    get_list_of_records W data_set_id start limit = Ok data ->
    py_get data "records" (VList []) = Ok records ->
    py_iter records = Ok items ->
    (Z.of_nat (length items) <= limit)%Z.

(** A record whose [entity.values] is a mapping (or is left out). *)
Definition well_formed_record (record : pyval) : Prop :=
  exists kvs, record_values record = Ok (VDict kvs).

(** The HTTP status the handler itself chose, if it chose one: that of
    the [JSONResponse] it returned or of the [HTTPException] it raised. *)
Definition status_of (r : result Response) : option Z :=
  match r with
  | Ok response => Some (response_status response)
  | Raise (HTTPException status _) => Some status
  | Raise (PyExn _ _) => None
  end.

(** The handler accepted the trigger and read these four identifiers
    from [input_data[0]["values"]]. *)
Definition accepted_trigger (request : Request)
    (subscription_id monitor_inst_id payload_dataset_id run_id : pyval) : Prop :=
  exists request_body input_data first data,
    json request = Ok request_body
    /\ py_get request_body "input_data" VNone = Ok input_data
    /\ truthy input_data = true
    /\ is_list input_data = true
    /\ py_first input_data = Ok first
    /\ py_get first "values" VNone = Ok data
    /\ py_get data "subscription_id" VNone = Ok subscription_id
    /\ py_get data "custom_monitor_instance_id" VNone = Ok monitor_inst_id
    /\ py_get data "payload_dataset_id" VNone = Ok payload_dataset_id
    /\ py_get data "custom_monitor_run_id" VNone = Ok run_id.


(* ===================================================================== *)
(** * Invariants and relations used in the proofs *)
(* ===================================================================== *)

(** What the two accumulators hold once the samples [seen] have been
    processed. *)
Definition sums_counts_of (seen : list MetricSample)
    (acc : list (string * float) * list (string * Z)) : Prop :=
  forall n,
    Dict.get n (fst acc) =
      match values_named n seen with
      | [] => None
      | vs => Some (fold_left PrimFloat.add vs 0%float)
      end
    /\ Dict.get n (snd acc) =
      match values_named n seen with
      | [] => None
      | vs => Some (Z.of_nat (length vs))
      end.

(** What one turn of the loop makes of one record. *)
Definition row_of_record (fields : list string) (record : pyval)
    (row : list (string * pyval)) : Prop :=
  exists values generated_text,
    record_values record = Ok values
    /\ py_get values "generated_text" VNone = Ok generated_text
    /\ Dict.get "generated_text" row = Some generated_text
    /\ forall k, k ∈ Dict.keys row -> k <> "generated_text" ->
                 k ∈ fields /\ py_in k values = Ok true.

(* ===================================================================== *)
(** * A small concrete deployment, for worked examples *)
(* ===================================================================== *)

Module Demo.

(** A RAG subscription whose two field lists overlap on ["context"]
    and repeat ["question"]. *)
Definition subscription : pyval :=
  subscription_payload (VStr RAG)
    ["question"; "context"; "question"] ["documents"; "context"].

(** The same subscription with its field lists in another order. *)
Definition subscription_reordered : pyval :=
  subscription_payload (VStr RAG)
    ["question"; "question"; "context"] ["context"; "documents"].

(** A subscription that is not RAG. *)
Definition plain_subscription : pyval :=
  subscription_payload (VStr "generation") ["question"; "audience"] [].

Definition runs : list Run :=
  [ {| run_state := Some "running"; run_created_at := Some "2024-05-03T09:00:00Z" |};
    {| run_state := Some "finished"; run_created_at := Some "2024-05-02T09:00:00Z" |};
    {| run_state := Some "finished"; run_created_at := Some "2024-05-01T09:00:00Z" |} ].

Definition record (values : list (string * pyval)) : pyval :=
  VDict [("entity", VDict [("values", VDict values)])].

(** Two stored interactions; the second has no [generated_text] and
    no [context]. *)
Definition records : list pyval :=
  [ record [("question", VStr "What is a watermark?");
            ("context", VStr "A watermark separates old records from new.");
            ("latency_ms", VInt 12);
            ("generated_text", VStr "A time boundary.")];
    record [("question", VStr "And a run?")] ].

Definition world : World :=
  {| new_client := Ok tt;
     subscriptions_get := fun _ => Ok subscription;
     list_runs := fun _ => Ok (runs_payload runs);
     get_list_of_records := fun _ _ limit =>
       Ok (VDict [("records", VList (firstn (Z.to_nat limit) records))]);
     new_evaluator := fun _ => Ok tt;
     evaluate := fun _ _ _ => Ok example_samples;
     new_metrics_manager := Ok tt;
     store_metric_data := fun _ _ _ => Ok tt |}.

Definition with_subscription (payload : pyval) (W : World) : World :=
  {| new_client := new_client W;
     subscriptions_get := fun _ => Ok payload;
     list_runs := list_runs W;
     get_list_of_records := get_list_of_records W;
     new_evaluator := new_evaluator W;
     evaluate := evaluate W;
     new_metrics_manager := new_metrics_manager W;
     store_metric_data := store_metric_data W |}.

Definition with_runs (answer : result pyval) (W : World) : World :=
  {| new_client := new_client W;
     subscriptions_get := subscriptions_get W;
     list_runs := fun _ => answer;
     get_list_of_records := get_list_of_records W;
     new_evaluator := new_evaluator W;
     evaluate := evaluate W;
     new_metrics_manager := new_metrics_manager W;
     store_metric_data := store_metric_data W |}.

Definition with_store (answer : result unit) (W : World) : World :=
  {| new_client := new_client W;
     subscriptions_get := subscriptions_get W;
     list_runs := list_runs W;
     get_list_of_records := get_list_of_records W;
     new_evaluator := new_evaluator W;
     evaluate := evaluate W;
     new_metrics_manager := new_metrics_manager W;
     store_metric_data := fun _ _ _ => answer |}.

(** The run registry cannot be reached. *)
Definition connection_error : exn :=
  PyExn (OtherError "ConnectionError") "Failed to establish a new connection".

(** The metrics sink rejects the write. *)
Definition sink_error : exn :=
  PyExn (OtherError "ApiRequestFailure") "store_metric_data failed with status 503".

Definition trigger_values : pyval :=
  VDict [("subscription_id", VStr "sub-1");
         ("custom_monitor_instance_id", VStr "mon-1");
         ("payload_dataset_id", VStr "ds-1");
         ("custom_monitor_run_id", VStr "run-1")].

(** A well-formed trigger. *)
Definition request : Request :=
  {| json := Ok (VDict [("input_data", VList [VDict [("values", trigger_values)]])]) |}.

(** A trigger whose first [input_data] entry has no ["values"]. *)
Definition request_without_values : Request :=
  {| json := Ok (VDict [("input_data", VList [VDict []])]) |}.

(** A trigger with no [input_data]. *)
Definition request_without_input_data : Request :=
  {| json := Ok (VDict [("inputs", VList [])]) |}.

End Demo.


(* ===================================================================== *)
(** * Further concrete deployments: one collaborator replaced at a time *)
(* ===================================================================== *)

Module Scenario.

Definition with_client (answer : result unit) (W : World) : World :=
  {| new_client := answer;
     subscriptions_get := subscriptions_get W;
     list_runs := list_runs W;
     get_list_of_records := get_list_of_records W;
     new_evaluator := new_evaluator W;
     evaluate := evaluate W;
     new_metrics_manager := new_metrics_manager W;
     store_metric_data := store_metric_data W |}.

Definition with_subscription_answer (answer : result pyval) (W : World) : World :=
  {| new_client := new_client W;
     subscriptions_get := fun _ => answer;
     list_runs := list_runs W;
     get_list_of_records := get_list_of_records W;
     new_evaluator := new_evaluator W;
     evaluate := evaluate W;
     new_metrics_manager := new_metrics_manager W;
     store_metric_data := store_metric_data W |}.

Definition with_records (answer : result pyval) (W : World) : World :=
  {| new_client := new_client W;
     subscriptions_get := subscriptions_get W;
     list_runs := list_runs W;
     get_list_of_records := fun _ _ _ => answer;
     new_evaluator := new_evaluator W;
     evaluate := evaluate W;
     new_metrics_manager := new_metrics_manager W;
     store_metric_data := store_metric_data W |}.

Definition with_evaluator (built : result unit)
    (answer : result (list MetricSample)) (W : World) : World :=
  {| new_client := new_client W;
     subscriptions_get := subscriptions_get W;
     list_runs := list_runs W;
     get_list_of_records := get_list_of_records W;
     new_evaluator := fun _ => built;
     evaluate := fun _ _ _ => answer;
     new_metrics_manager := new_metrics_manager W;
     store_metric_data := store_metric_data W |}.

Definition with_manager (answer : result unit) (W : World) : World :=
  {| new_client := new_client W;
     subscriptions_get := subscriptions_get W;
     list_runs := list_runs W;
     get_list_of_records := get_list_of_records W;
     new_evaluator := new_evaluator W;
     evaluate := evaluate W;
     new_metrics_manager := answer;
     store_metric_data := store_metric_data W |}.

(** A failure of some collaborator. *)
Definition service_error : exn :=
  PyExn (OtherError "ApiRequestFailure") "service unavailable".

(** The profile the resolver computes for [Demo.subscription]. *)
Definition rag_profile : AssetFieldProfile :=
  {| problem_type := VStr RAG;
     feature_fields := ["question"];
     context_fields := Some ["context"; "documents"];
     fields := ["context"; "documents"; "question"] |}.

(** The batch the fetcher builds from [Demo.records] for that profile. *)
Definition batch : DataFrame :=
  {| df_rows :=
       [ [("context", VStr "A watermark separates old records from new.");
          ("question", VStr "What is a watermark?");
          ("generated_text", VStr "A time boundary.")];
         [("question", VStr "And a run?"); ("generated_text", VNone)] ] |}.

(** The metric objects of [run_evaluator], in its order. *)
Definition metrics : list Metric :=
  [ AnswerRelevanceMetric; TextReadingEaseMetric; SocialBiasMetric;
    JailbreakMetric; TextGradeLevelMetric ].

(** A subscription answer with no ["entity"]. *)
Definition payload_without_entity : pyval := VDict [("metadata", VDict [])].

(** A subscription whose ["asset"] is null. *)
Definition payload_null_asset : pyval :=
  VDict [("entity", VDict [("asset", VNone)])].

(** A subscription whose ["asset_properties"] is null. *)
Definition payload_null_asset_properties : pyval :=
  VDict [("entity", VDict [("asset", VDict [("problem_type", VStr RAG)]);
                           ("asset_properties", VNone)])].

(** A subscription that names its problem type and nothing else. *)
Definition payload_bare : pyval :=
  VDict [("entity", VDict [("asset", VDict [("problem_type", VStr RAG)])])].

(** A trigger with a second [input_data] entry and further keys. *)
Definition request_with_extras : Request :=
  {| json :=
       Ok (VDict [("request_id", VInt 7);
                  ("input_data",
                   VList [VDict [("values", Demo.trigger_values)];
                          VDict [("values", VDict [("subscription_id", VStr "other")])]])]) |}.

(** A trigger whose ["values"] names no identifier. *)
Definition request_without_identifiers : Request :=
  {| json := Ok (VDict [("input_data", VList [VDict [("values", VDict [])]])]) |}.

(** A JSON body that is an array, not an object. *)
Definition request_array_body : Request :=
  {| json := Ok (VList [VDict [("values", Demo.trigger_values)]]) |}.

End Scenario.

Module Scenario2.

(** A subscription of another problem type that lists ["context"] both
    as a feature and as a context field. *)
Definition plain_with_context : pyval :=
  subscription_payload (VStr "generation") ["question"; "context"] ["context"].

(** A run listing with a finished run followed by a null entry. *)
Definition runs_with_null : pyval :=
  VDict [("runs",
          VList [run_to_py {| run_state := Some "finished";
                              run_created_at := Some "2024-05-02T09:00:00Z" |};
                 VNone])].

(** The payload store has nothing new. *)
Definition no_records : pyval := VDict [("records", VList [])].

(** The profile the resolver computes for [Scenario.payload_bare]. *)
Definition bare_profile : AssetFieldProfile :=
  {| problem_type := VStr RAG;
     feature_fields := [];
     context_fields := Some [];
     fields := [] |}.

(** The aggregated metrics of [example_samples]. *)
Definition example_means : list (string * float) :=
  [("bias", 0.5%float); ("relevance", 1%float)].

End Scenario2.

Module Scenario3.

(** A stored interaction with a question and no answer. *)
Definition question_only : pyval := Demo.record [("question", VStr "q")].

(** A listing of 501 records: one more than the limit the fetcher
    passes. *)
Definition oversized_records : list pyval := repeat question_only 501.

(** A payload store that answers every listing with those 501 records,
    whatever limit it is given. *)
Definition overfull_world : World :=
  Scenario.with_records (Ok (VDict [("records", VList oversized_records)]))
    Demo.world.

(** The row the fetcher builds from [question_only] for
    [Scenario.rag_profile]. *)
Definition question_only_row : list (string * pyval) :=
  [("question", VStr "q"); ("generated_text", VNone)].

End Scenario3.

(* ===================================================================== *)
(** * Properties of dictionaries *)
(* ===================================================================== *)

Section dict_facts.
Context {V : Type}.
Implicit Types (d : list (string * V)) (k : string) (v : V).

Lemma dict_get_set_eq d k v : Dict.get k (Dict.set k v d) = Some v.
Proof.
  induction d as [|[k' v'] d IH]; simpl.
  - by rewrite String.eqb_refl.
  - destruct (String.eqb k k') eqn:E; simpl; rewrite E; [done | apply IH].
Qed.

Lemma dict_get_set_ne d k k' v :
  k <> k' -> Dict.get k' (Dict.set k v d) = Dict.get k' d.
Proof.
  intros Hne. induction d as [|[k0 v0] d IH]; simpl.
  - destruct (String.eqb_spec k' k); [congruence | done].
  - destruct (String.eqb_spec k k0) as [->|Hk]; simpl.
    + destruct (String.eqb_spec k' k0); [congruence | done].
    + destruct (String.eqb_spec k' k0); [done | apply IH].
Qed.

Lemma dict_get_Some_keys d k v : Dict.get k d = Some v -> k ∈ Dict.keys d.
Proof.
  induction d as [|[k0 v0] d IH]; simpl; [done|].
  destruct (String.eqb_spec k k0) as [->|Hk]; intros H.
  - apply list_elem_of_here.
  - apply list_elem_of_further, IH, H.
Qed.

Lemma dict_get_None_keys d k : Dict.get k d = None -> k ∉ Dict.keys d.
Proof.
  induction d as [|[k0 v0] d IH]; simpl; [intros _; apply not_elem_of_nil|].
  destruct (String.eqb_spec k k0) as [->|Hk]; intros H; [done|].
  apply not_elem_of_cons. split; [done | by apply IH].
Qed.

Lemma dict_mem_keys d k : Dict.mem k d = true <-> k ∈ Dict.keys d.
Proof.
  unfold Dict.mem. destruct (Dict.get k d) eqn:E.
  - split; [intros _; eapply dict_get_Some_keys, E | done].
  - split; [done | intros H; by apply dict_get_None_keys in E].
Qed.

Lemma dict_keys_set d k v :
  forall x, x ∈ Dict.keys (Dict.set k v d) <-> x = k \/ x ∈ Dict.keys d.
Proof.
  intros x. induction d as [|[k0 v0] d IH]; simpl.
  - rewrite list_elem_of_singleton. split; [auto | intros [?|H]; [done|]].
    by apply not_elem_of_nil in H.
  - destruct (String.eqb_spec k k0) as [->|Hk]; simpl.
    + rewrite !elem_of_cons. tauto.
    + rewrite !elem_of_cons, IH. tauto.
Qed.
End dict_facts.

(* ===================================================================== *)
(** * Aggregation ([_calc_mean]) *)
(* ===================================================================== *)

Section calc_mean_facts.

Lemma values_named_snoc n seen r :
  values_named n (seen ++ [r]) = (values_named n seen ++ values_named n [r])%list.
Proof. unfold values_named. by rewrite flat_map_app. Qed.

Lemma calc_mean_step_inv seen acc r :
  sums_counts_of seen acc -> sums_counts_of (seen ++ [r]) (calc_mean_step acc r).
Proof.
  intros Inv n. rewrite values_named_snoc.
  destruct acc as [sums counts]. unfold calc_mean_step, values_named at 2 4.
  destruct (Inv n) as [Hs Hc]. simpl in Hs, Hc. simpl flat_map.
  destruct (name r) as [nm|]; [destruct (value r) as [v|] |];
    try (rewrite !app_nil_r; simpl; by split).
  destruct (Inv nm) as [Hs' Hc']. simpl in Hs', Hc'.
  destruct (String.eqb_spec nm n) as [->|Hne]; simpl.
  - rewrite !dict_get_set_eq. unfold dd_get. rewrite Hs, Hc.
    destruct (values_named n seen) as [|v0 vs]; simpl; [done|].
    rewrite fold_left_app, length_app. simpl. split; [done|].
    f_equal. lia.
  - rewrite !app_nil_r, !dict_get_set_ne by done. by split.
Qed.

Lemma calc_mean_loop_inv records :
  forall seen acc,
    sums_counts_of seen acc ->
    sums_counts_of (seen ++ records) (fold_left calc_mean_step records acc).
Proof.
  induction records as [|r records IH]; intros seen acc Inv; simpl.
  - by rewrite app_nil_r.
  - replace (seen ++ r :: records)%list with ((seen ++ [r]) ++ records)%list
      by (by rewrite <- app_assoc).
    apply IH, calc_mean_step_inv, Inv.
Qed.

(** Dropping the samples the loop skips changes nothing. *)
Lemma calc_mean_skips_incomplete records :
  forall acc,
    fold_left calc_mean_step (List.filter is_complete records) acc =
    fold_left calc_mean_step records acc.
Proof.
  induction records as [|r records IH]; intros acc; [done|].
  cbn [List.filter fold_left].
  destruct (is_complete r) eqn:Hr; cbn [fold_left]; [apply IH|].
  rewrite IH. f_equal. unfold calc_mean_step, is_complete in *.
  destruct acc as [sums counts].
  by destruct (name r), (value r).
Qed.

Lemma mean_comprehension_get sums counts n :
  Dict.get n (mean_comprehension sums counts) =
    if bool_decide (n ∈ Dict.keys sums) && (0 <? dd_get 0%Z n counts)%Z
    then Some (PrimFloat.div (dd_get 0%float n sums)
                             (float_of_count (dd_get 0%Z n counts)))
    else None.
Proof.
  unfold mean_comprehension.
  assert (G : forall ks out,
    Dict.get n (fold_left
      (fun out name =>
         if (0 <? dd_get 0%Z name counts)%Z
         then Dict.set name
                (PrimFloat.div (dd_get 0%float name sums)
                               (float_of_count (dd_get 0%Z name counts))) out
         else out) ks out) =
    if bool_decide (n ∈ ks) && (0 <? dd_get 0%Z n counts)%Z
    then Some (PrimFloat.div (dd_get 0%float n sums)
                             (float_of_count (dd_get 0%Z n counts)))
    else Dict.get n out).
  { induction ks as [|k ks IH]; intros out; simpl.
    - done.
    - rewrite IH. clear IH.
      destruct (0 <? dd_get 0%Z n counts)%Z eqn:Hn;
        rewrite ?andb_true_r, ?andb_false_r.
      + destruct (decide (n ∈ ks)) as [Hin|Hnin].
        { rewrite !bool_decide_eq_true_2; [done | by apply list_elem_of_further | done]. }
        rewrite (bool_decide_eq_false_2 _ Hnin).
        destruct (decide (n = k)) as [->|Hne].
        * rewrite bool_decide_eq_true_2 by apply list_elem_of_here.
          rewrite Hn. apply dict_get_set_eq.
        * rewrite bool_decide_eq_false_2
            by (rewrite elem_of_cons; intros [?|?]; done).
          destruct (0 <? dd_get 0%Z k counts)%Z; [|done].
          by rewrite dict_get_set_ne.
      + destruct (decide (n = k)) as [->|Hne]; [by rewrite Hn|].
        destruct (0 <? dd_get 0%Z k counts)%Z; [|done].
        by rewrite dict_get_set_ne. }
  rewrite G. by destruct (_ && _).
Qed.

End calc_mean_facts.

(** C3: [_calc_mean] maps every metric name to the arithmetic mean of
    the values of the samples bearing that name; a sample with no name
    or no value counts in neither the sum nor the number of its group
    (removing such samples from the list leaves the result as it is); a
    name with no surviving sample has no entry; and the sample list
    [bias 0.2, bias 0.8, relevance 1.0] aggregates to
    [{bias: 0.5, relevance: 1.0}]. *)
Theorem calc_mean_is_arithmetic_mean :
  (forall (records : list MetricSample) (n : string),
      Dict.get n (_calc_mean records) =
        match values_named n records with
        | [] => None
        | vs => Some (arithmetic_mean vs)
        end)
  /\ (forall records : list MetricSample,
        _calc_mean (List.filter is_complete records) = _calc_mean records)
  /\ _calc_mean example_samples = [("bias", 0.5%float); ("relevance", 1%float)].
Proof.
  split; [|split].
  - intros records n. unfold _calc_mean.
    pose proof (calc_mean_loop_inv records [] ([], [])) as Inv.
    destruct (fold_left calc_mean_step records ([], [])) as [sums counts].
    destruct (Inv (fun _ => conj eq_refl eq_refl) n) as [Hs Hc].
    simpl in Hs, Hc. rewrite mean_comprehension_get. unfold dd_get.
    rewrite Hs, Hc.
    destruct (values_named n records) as [|v vs] eqn:E.
    + rewrite bool_decide_eq_false_2; [done|].
      by apply dict_get_None_keys.
    + rewrite bool_decide_eq_true_2 by (eapply dict_get_Some_keys, Hs).
      replace (0 <? Z.of_nat (length (v :: vs)))%Z with true
        by (symmetry; apply Z.ltb_lt; simpl; lia).
      done.
  - intros records. unfold _calc_mean. by rewrite calc_mean_skips_incomplete.
  - vm_compute. reflexivity.
Qed.

(* ===================================================================== *)
(** * The order on field names, and [sorted] *)
(* ===================================================================== *)

Section string_order.

Lemma ascii_compare_refl a : Ascii.compare a a = Eq.
Proof. unfold Ascii.compare. apply N.compare_refl. Qed.

Lemma ascii_compare_lt_trans a b c :
  Ascii.compare a b = Lt -> Ascii.compare b c = Lt -> Ascii.compare a c = Lt.
Proof.
  unfold Ascii.compare. rewrite !N.compare_lt_iff. apply N.lt_trans.
Qed.

Lemma string_compare_lt_trans s1 :
  forall s2 s3,
    String.compare s1 s2 = Lt -> String.compare s2 s3 = Lt ->
    String.compare s1 s3 = Lt.
Proof.
  induction s1 as [|a s1 IH]; intros [|b s2] [|c s3]; simpl; try done.
  destruct (Ascii.compare a b) eqn:Hab; try done;
    destruct (Ascii.compare b c) eqn:Hbc; try done; intros H12 H23.
  - apply Ascii.compare_eq_iff in Hab, Hbc. subst.
    rewrite ascii_compare_refl. eapply IH; eauto.
  - apply Ascii.compare_eq_iff in Hab. subst. by rewrite Hbc.
  - apply Ascii.compare_eq_iff in Hbc. subst. by rewrite Hab.
  - by rewrite (ascii_compare_lt_trans _ _ _ Hab Hbc).
Qed.

Lemma str_le_compare a b : str_le a b <-> String.compare a b <> Gt.
Proof.
  unfold str_le, String.leb. destruct (String.compare a b); split; done.
Qed.

#[global] Instance str_le_trans : Transitive str_le.
Proof.
  intros a b c. rewrite !str_le_compare. intros Hab Hbc.
  destruct (String.compare a b) eqn:E1; [| |done].
  { apply String.compare_eq_iff in E1. by subst. }
  destruct (String.compare b c) eqn:E2; [| |done].
  { apply String.compare_eq_iff in E2. subst. by rewrite E1. }
  by rewrite (string_compare_lt_trans _ _ _ E1 E2).
Qed.

#[global] Instance str_le_total : Total str_le.
Proof. intros a b. apply String.leb_total. Qed.

#[global] Instance str_le_antisym : AntiSymm (=) str_le.
Proof. intros a b. apply String.leb_antisym. Qed.

End string_order.

Section sorted_facts.
Implicit Types (s : gset string) (x : string).

Lemma elem_of_sorted s x : x ∈ sorted s <-> x ∈ s.
Proof. unfold sorted. by rewrite merge_sort_Permutation, elem_of_elements. Qed.

Lemma NoDup_sorted s : NoDup (sorted s).
Proof. unfold sorted. rewrite merge_sort_Permutation. apply NoDup_elements. Qed.

Lemma Sorted_sorted s : Sorted str_le (sorted s).
Proof. apply Sorted_merge_sort, _. Qed.

(** [set] forgets the order and the repetitions of the list it is
    built from. *)
Lemma list_to_set_same_elements (l1 l2 : list string) :
  (forall x, x ∈ l1 <-> x ∈ l2) ->
  (list_to_set l1 : gset string) = list_to_set l2.
Proof. intros H. apply set_eq. intros x. by rewrite !elem_of_list_to_set. Qed.

End sorted_facts.

(* ===================================================================== *)
(** * Laws of the call-recording monad *)
(* ===================================================================== *)

Section monad_laws.
Context {A B : Type}.

Lemma outcome_bind (m : M A) (f : A -> M B) :
  outcome (bind m f) =
    match outcome m with
    | Ok a => outcome (f a)
    | Raise e => Raise e
    end.
Proof. destruct m as [t [a|e]]; simpl; [|done]. by destruct (f a). Qed.

Lemma trace_bind (m : M A) (f : A -> M B) :
  trace (bind m f) =
    (trace m ++ match outcome m with
                | Ok a => trace (f a)
                | Raise _ => []
                end)%list.
Proof.
  destruct m as [t [a|e]]; simpl; [by destruct (f a) | by rewrite app_nil_r].
Qed.

Lemma outcome_try_except (m : M A) (h : exn -> option (M A)) :
  outcome (try_except m h) =
    match outcome m with
    | Ok a => Ok a
    | Raise e =>
        match h e with
        | Some k => outcome k
        | None => Raise e
        end
    end.
Proof.
  destruct m as [t [a|e]]; simpl; [done|].
  destruct (h e) as [[t' r]|]; done.
Qed.

Lemma trace_try_except (m : M A) (h : exn -> option (M A)) :
  trace (try_except m h) =
    (trace m ++ match outcome m with
                | Ok _ => []
                | Raise e =>
                    match h e with
                    | Some k => trace k
                    | None => []
                    end
                end)%list.
Proof.
  destruct m as [t [a|e]]; simpl; [by rewrite app_nil_r|].
  destruct (h e) as [[t' r]|]; simpl; [done | by rewrite app_nil_r].
Qed.

Lemma outcome_lift (r : result A) : outcome (lift r) = r.
Proof. done. Qed.

Lemma outcome_ret (a : A) : outcome (ret a) = Ok a.
Proof. done. Qed.

Lemma outcome_raise (e : exn) : outcome (raise e : M A) = Raise e.
Proof. done. Qed.

Lemma outcome_perform (c : call) (r : result A) : outcome (perform c r) = r.
Proof. done. Qed.

Lemma trace_lift (r : result A) : trace (lift r) = [].
Proof. done. Qed.

Lemma trace_ret (a : A) : trace (ret a) = [].
Proof. done. Qed.

Lemma trace_raise (e : exn) : trace (raise e : M A) = [].
Proof. done. Qed.

Lemma trace_perform (c : call) (r : result A) : trace (perform c r) = [c].
Proof. done. Qed.
End monad_laws.

Create Rewrite HintDb py.
#[global] Hint Rewrite
  @outcome_bind @outcome_try_except @outcome_lift @outcome_ret @outcome_raise
  @outcome_perform @trace_bind @trace_try_except @trace_lift @trace_ret
  @trace_raise @trace_perform : py.

Lemma outcome_bind_Ok {A B} (m : M A) (f : A -> M B) (b : B) :
  outcome (bind m f) = Ok b ->
  exists a, outcome m = Ok a /\ outcome (f a) = Ok b.
Proof.
  rewrite outcome_bind. destruct (outcome m) as [a|e]; [eauto | done].
Qed.

(** A handler that only re-raises never turns a failure into a result. *)
Lemma outcome_try_reraise_Ok {A} (m : M A) (h : exn -> exn) (a : A) :
  outcome (try_except m (fun e => Some (raise (h e)))) = Ok a ->
  outcome m = Ok a.
Proof.
  rewrite outcome_try_except. by destruct (outcome m).
Qed.

(** Read a successful run of a computation backwards, one statement at
    a time. *)
Ltac invert_run H :=
  repeat
    (cbn beta zeta in H;
     lazymatch type of H with
     | outcome (bind _ _) = Ok _ =>
         let a := fresh "a" in
         let Ha := fresh "Ha" in
         apply outcome_bind_Ok in H as (a & Ha & H);
         try invert_run Ha
     | outcome (try_except _ (fun _ => Some (raise _))) = Ok _ =>
         apply (outcome_try_reraise_Ok _ (fun _ => _)) in H
     | outcome (lift _) = Ok _ => rewrite outcome_lift in H
     | outcome (perform _ _) = Ok _ => rewrite outcome_perform in H
     | outcome (ret _) = Ok _ => rewrite outcome_ret in H
     end).

Ltac py_simpl :=
  repeat (progress (cbn beta iota zeta delta [fst snd];
                    autorewrite with py)).

Lemma mapR_Ok_Forall2 {A B} (f : A -> result B) (xs : list A) (ys : list B) :
  mapR f xs = Ok ys -> Forall2 (fun x y => f x = Ok y) xs ys.
Proof.
  revert ys. induction xs as [|x xs IH]; simpl; intros ys H.
  - injection H as <-. constructor.
  - destruct (f x) as [y|e] eqn:Ef; [|done].
    destruct (mapR f xs) as [ys'|e]; [|done].
    injection H as <-. constructor; [done | by apply IH].
Qed.

Lemma mapR_Forall_Ok {A B} (f : A -> result B) (xs : list A) :
  Forall (fun x => exists y, f x = Ok y) xs -> exists ys, mapR f xs = Ok ys.
Proof.
  induction 1 as [|x xs [y Hy] _ [ys IH]]; simpl; [by eexists|].
  rewrite Hy, IH. by eexists.
Qed.

Lemma mapR_map {A B} (g : A -> B) (f : B -> result A) (xs : list A) :
  (forall x, f (g x) = Ok x) -> mapR f (map g xs) = Ok xs.
Proof.
  intros Hfg. induction xs as [|x xs IH]; simpl; [done|].
  by rewrite Hfg, IH.
Qed.

(* ===================================================================== *)
(** * Field Resolver ([extract_prompt_fields]) *)
(* ===================================================================== *)

Section field_resolver.
Context (W : World).

(** Every profile the resolver returns comes from two sets [F] (the
    feature fields read) and [C] (the context fields read) in one of
    the two shapes of its [return] statements. *)
Lemma extract_prompt_fields_Ok sid p :
  outcome (extract_prompt_fields W sid) = Ok p ->
  exists F C : gset string,
    (py_eq_str (problem_type p) RAG = true
     /\ feature_fields p = sorted (F ∖ C)
     /\ context_fields p = Some (sorted C)
     /\ fields p = sorted ((F ∖ C) ∪ C))
    \/ (py_eq_str (problem_type p) RAG = false
        /\ feature_fields p = sorted F
        /\ context_fields p = None
        /\ fields p = sorted F).
Proof.
  unfold extract_prompt_fields, _get_client. intros H. invert_run H.
  destruct (py_eq_str _ RAG) eqn:Hrag; invert_run H; injection H as <-; simpl.
  - eexists _, _. left. repeat split; [exact Hrag | reflexivity..].
  - eexists _, ∅. right. repeat split; [exact Hrag | reflexivity..].
Qed.

Lemma py_set_strings (l : list string) :
  py_set (VList (map VStr l)) = Ok (list_to_set l).
Proof.
  unfold py_set. simpl. by rewrite (mapR_map VStr as_field_name l).
Qed.

(** On a well-formed subscription the resolver returns, and this is
    what it returns. *)
Lemma extract_prompt_fields_well_formed sid pt ff cf :
  new_client W = Ok tt ->
  subscriptions_get W sid = Ok (subscription_payload pt ff cf) ->
  outcome (extract_prompt_fields W sid) =
    Ok (if py_eq_str pt RAG
        then {| problem_type := pt;
                feature_fields := sorted (list_to_set ff ∖ list_to_set cf);
                context_fields := Some (sorted (list_to_set cf));
                fields := sorted ((list_to_set ff ∖ list_to_set cf)
                                  ∪ list_to_set cf) |}
        else {| problem_type := pt;
                feature_fields := sorted (list_to_set ff);
                context_fields := None;
                fields := sorted (list_to_set ff) |}).
Proof.
  intros Hc Hs. unfold extract_prompt_fields, _get_client.
  autorewrite with py. rewrite Hc, Hs. simpl. autorewrite with py. simpl.
  rewrite py_set_strings. autorewrite with py.
  destruct (py_eq_str pt RAG); autorewrite with py; simpl; [|done].
  rewrite py_set_strings. by autorewrite with py.
Qed.

End field_resolver.

(** C5: a RAG profile has disjoint feature and context fields, its
    [fields] are exactly their union, each of its three lists is sorted
    and free of duplicates, a field named in both input lists ends up a
    context field, and the profile does not depend on the order in which
    the subscription lists its fields. *)
Theorem rag_profile_invariants :
  (forall (W : World) (sid : pyval) (p : AssetFieldProfile),
      outcome (extract_prompt_fields W sid) = Ok p ->
      py_eq_str (problem_type p) RAG = true ->
      exists cfs,
        context_fields p = Some cfs
        /\ (forall x, x ∈ feature_fields p -> x ∉ cfs)
        /\ (forall x, x ∈ fields p <-> x ∈ feature_fields p \/ x ∈ cfs)
        /\ NoDup (feature_fields p) /\ NoDup cfs /\ NoDup (fields p)
        /\ Sorted str_le (feature_fields p)
        /\ Sorted str_le cfs
        /\ Sorted str_le (fields p))
  /\ (forall (W W' : World) (sid : pyval) (ff cf ff' cf' : list string),
        new_client W = Ok tt ->
        new_client W' = Ok tt ->
        subscriptions_get W sid = Ok (subscription_payload (VStr RAG) ff cf) ->
        subscriptions_get W' sid = Ok (subscription_payload (VStr RAG) ff' cf') ->
        ff ≡ₚ ff' ->
        cf ≡ₚ cf' ->
        exists p cfs,
          outcome (extract_prompt_fields W sid) = Ok p
          /\ outcome (extract_prompt_fields W' sid) = Ok p
          /\ context_fields p = Some cfs
          /\ (forall x, x ∈ cfs <-> x ∈ cf)
          /\ (forall x, x ∈ feature_fields p <-> x ∈ ff /\ x ∉ cf)).
Proof.
  split.
  - intros W sid p Hp Hrag.
    destruct (extract_prompt_fields_Ok W sid p Hp) as (F & C & [H|H]);
      destruct H as (Hpt & Hf & Hc & Ha); [|congruence].
    exists (sorted C). rewrite Hf, Ha. split; [done|].
    repeat split; auto using NoDup_sorted, Sorted_sorted.
    + intros x. rewrite !elem_of_sorted. set_solver.
    + rewrite !elem_of_sorted. set_solver.
    + rewrite !elem_of_sorted. set_solver.
  - intros W W' sid ff cf ff' cf' Hc Hc' Hs Hs' Hff Hcf.
    pose proof (extract_prompt_fields_well_formed W sid _ ff cf Hc Hs) as E.
    pose proof (extract_prompt_fields_well_formed W' sid _ ff' cf' Hc' Hs') as E'.
    assert (Sf : (list_to_set ff' : gset string) = list_to_set ff).
    { apply list_to_set_same_elements. intros x. by rewrite Hff. }
    assert (Sc : (list_to_set cf' : gset string) = list_to_set cf).
    { apply list_to_set_same_elements. intros x. by rewrite Hcf. }
    rewrite Sf, Sc in E'. simpl in E, E'.
    eexists _, _. split; [exact E|]. split; [exact E'|]. simpl.
    split; [done|]. split; intros x; rewrite elem_of_sorted; set_solver.
Qed.

(** C6: a profile whose problem type is not RAG carries no context
    fields (the key is left out, which every reader takes as the empty
    list, and the evaluator configuration gets the empty list), and its
    [fields] are its [feature_fields]. *)
Theorem non_rag_profile_has_no_context :
  forall (W : World) (sid : pyval) (p : AssetFieldProfile),
    outcome (extract_prompt_fields W sid) = Ok p ->
    py_eq_str (problem_type p) RAG = false ->
    get_context_fields p = []
    /\ config_context_fields (evaluator_config p) = []
    /\ fields p = feature_fields p.
Proof.
  intros W sid p Hp Hrag.
  destruct (extract_prompt_fields_Ok W sid p Hp) as (F & C & [H|H]);
    destruct H as (Hpt & Hf & Hc & Ha); [congruence|].
  unfold get_context_fields, evaluator_config. simpl.
  rewrite Hrag, Hc, Hf, Ha. done.
Qed.

(** C4: on an empty batch [run_evaluator] returns the empty mapping and
    makes no call at all: the evaluator is neither built nor invoked. *)
Theorem run_evaluator_empty_batch :
  forall (W : World) (data : DataFrame) (asset_properties : AssetFieldProfile),
    df_empty data = true ->
    run_evaluator W data asset_properties = ([], Ok []).
Proof.
  intros W data asset_properties Hempty. unfold run_evaluator.
  by rewrite Hempty.
Qed.

(* ===================================================================== *)
(** * Watermark Tracker ([get_last_run_date]) *)
(* ===================================================================== *)

Section watermark.
Context (W : World).

(** The [except] clause names two classes and no others. *)
Lemma last_run_date_handler_None e :
  (forall msg, e <> PyExn IndexError msg /\ e <> PyExn AttributeError msg) ->
  last_run_date_handler e = None.
Proof.
  intros H. destruct e as [[] msg|]; simpl; try done;
    destruct (H msg) as [H1 H2]; congruence.
Qed.

Lemma get_last_run_date_absorbs mid c msg :
  outcome (get_last_run_date_body W mid) = Raise (PyExn c msg) ->
  c = IndexError \/ c = AttributeError ->
  outcome (get_last_run_date W mid) = Ok (VStr "").
Proof.
  intros Hbody Hc. unfold get_last_run_date.
  rewrite outcome_try_except, Hbody. by destruct Hc as [-> | ->].
Qed.

Lemma get_last_run_date_propagates mid e :
  outcome (get_last_run_date_body W mid) = Raise e ->
  (forall msg, e <> PyExn IndexError msg /\ e <> PyExn AttributeError msg) ->
  outcome (get_last_run_date W mid) = Raise e.
Proof.
  intros Hbody He. unfold get_last_run_date.
  by rewrite outcome_try_except, Hbody, last_run_date_handler_None.
Qed.

Lemma get_last_run_date_returns mid v :
  outcome (get_last_run_date_body W mid) = Ok v ->
  outcome (get_last_run_date W mid) = Ok v.
Proof.
  intros Hbody. unfold get_last_run_date.
  by rewrite outcome_try_except, Hbody.
Qed.

(** The body of the [try], once the registry has answered and the
    finished runs have been selected. *)
Lemma get_last_run_date_body_selected mid rd runs items finished_runs :
  new_client W = Ok tt ->
  list_runs W mid = Ok rd ->
  py_getitem rd "runs" = Ok runs ->
  py_iter runs = Ok items ->
  filterR run_is_finished items = Ok finished_runs ->
  outcome (get_last_run_date_body W mid) =
    match finished_runs with
    | [] => Ok (VStr "")
    | first :: _ =>
        bindR (py_get first "metadata" (VDict [])) (fun metadata =>
        py_get metadata "created_at" (VStr ""))
    end.
Proof.
  intros Hc Hl Hr Hi Hf. unfold get_last_run_date_body, _get_client.
  py_simpl. rewrite Hc. py_simpl. rewrite Hl. py_simpl. rewrite Hr.
  py_simpl. rewrite Hi. py_simpl. rewrite Hf. py_simpl.
  destruct finished_runs as [|first rest]; py_simpl; [done|].
  by destruct (py_get first "metadata" (VDict [])).
Qed.

Lemma last_run_date_handler_trace e :
  match last_run_date_handler e with
  | Some k => trace k
  | None => []
  end = [].
Proof. by destruct e as [[] msg|]. Qed.

Lemma trace_get_last_run_date mid :
  new_client W = Ok tt ->
  trace (get_last_run_date W mid) = [CallGetClient; CallListRuns mid].
Proof.
  intros Hc. unfold get_last_run_date. rewrite trace_try_except.
  replace (match outcome (get_last_run_date_body W mid) with
           | Ok _ => []
           | Raise e =>
               match last_run_date_handler e with
               | Some k => trace k
               | None => []
               end
           end) with (@nil call)
    by (destruct (outcome _); [done | by rewrite last_run_date_handler_trace]).
  rewrite app_nil_r. unfold get_last_run_date_body, _get_client.
  py_simpl. rewrite Hc. py_simpl.
  destruct (list_runs W mid) as [rd|e]; py_simpl; [|done].
  destruct (py_getitem rd "runs") as [runs|e]; py_simpl; [|done].
  destruct (py_iter runs) as [items|e]; py_simpl; [|done].
  destruct (filterR run_is_finished items) as [[|first rest]|e]; py_simpl;
    [done| |done].
  by destruct (py_get first "metadata" (VDict [])) as [md|e]; py_simpl.
Qed.

(** ** Well-formed run listings *)

Lemma run_is_finished_run_to_py r :
  run_is_finished (run_to_py r) = Ok (finished r).
Proof.
  unfold run_is_finished, run_to_py, finished.
  by destruct (run_state r).
Qed.

Lemma filterR_runs (runs : list Run) :
  filterR run_is_finished (map run_to_py runs) =
    Ok (map run_to_py (List.filter finished runs)).
Proof.
  induction runs as [|r runs IH]; [done|].
  cbn [map filterR List.filter].
  rewrite run_is_finished_run_to_py, IH. by destruct (finished r).
Qed.

Lemma find_filter (runs : list Run) :
  List.find finished runs = head (List.filter finished runs).
Proof.
  induction runs as [|r runs IH]; simpl; [done|].
  by destruct (finished r).
Qed.

Lemma get_last_run_date_well_formed mid runs :
  new_client W = Ok tt ->
  list_runs W mid = Ok (runs_payload runs) ->
  outcome (get_last_run_date W mid) =
    Ok (match List.find finished runs with
        | Some r =>
            match run_created_at r with
            | Some t => VStr t
            | None => VStr ""
            end
        | None => VStr ""
        end).
Proof.
  intros Hc Hl. apply get_last_run_date_returns.
  rewrite (get_last_run_date_body_selected mid _ _ _ _ Hc Hl eq_refl eq_refl
             (filterR_runs runs)).
  rewrite find_filter.
  destruct (List.filter finished runs) as [|r rest]; simpl; [done|].
  by destruct (run_created_at r).
Qed.


(** ** What the fetcher asks the payload store *)



End watermark.

(** C2 (as the code has it): the watermark lookup returns the empty
    watermark when the registry lists no run or no finished run, and
    when the lookup raises [IndexError] or [AttributeError]; an
    exception of any other class is not absorbed but reaches the caller:
    a failure of the registry call itself, or the [KeyError] raised when
    the answer has no ["runs"] entry. *)
Theorem watermark_lookup_absorbs_index_and_attribute_errors :
  forall (W : World) (mid : pyval),
    (forall rd runs items,
        new_client W = Ok tt ->
        list_runs W mid = Ok rd ->
        py_getitem rd "runs" = Ok runs ->
        py_iter runs = Ok items ->
        filterR run_is_finished items = Ok [] ->
        outcome (get_last_run_date W mid) = Ok (VStr ""))
    /\ (forall c msg,
          outcome (get_last_run_date_body W mid) = Raise (PyExn c msg) ->
          c = IndexError \/ c = AttributeError ->
          outcome (get_last_run_date W mid) = Ok (VStr ""))
    /\ (forall e,
          outcome (get_last_run_date_body W mid) = Raise e ->
          (forall msg, e <> PyExn IndexError msg /\ e <> PyExn AttributeError msg) ->
          outcome (get_last_run_date W mid) = Raise e)
    /\ (forall e,
          new_client W = Ok tt ->
          list_runs W mid = Raise e ->
          outcome (get_last_run_date_body W mid) = Raise e)
    /\ (forall kvs,
          new_client W = Ok tt ->
          list_runs W mid = Ok (VDict kvs) ->
          Dict.get "runs" kvs = None ->
          outcome (get_last_run_date W mid) = Raise (PyExn KeyError "'runs'")).
Proof.
  intros W mid. repeat split.
  - intros rd runs items Hc Hl Hr Hi Hf. apply get_last_run_date_returns.
    by rewrite (get_last_run_date_body_selected W mid _ _ _ _ Hc Hl Hr Hi Hf).
  - apply get_last_run_date_absorbs.
  - apply get_last_run_date_propagates.
  - intros e Hc Hl. unfold get_last_run_date_body, _get_client.
    py_simpl. rewrite Hc. py_simpl. by rewrite Hl.
  - intros kvs Hc Hl Hk. apply get_last_run_date_propagates; [|done].
    unfold get_last_run_date_body, _get_client.
    py_simpl. rewrite Hc. py_simpl. rewrite Hl. py_simpl.
    unfold py_getitem. by rewrite Hk.
Qed.


(* ===================================================================== *)
(** * Incremental Record Fetcher ([get_payload_data]) *)
(* ===================================================================== *)

Section record_fetcher.

(** Every key the comprehension adds is a requested field that the
    record's values hold. *)
Lemma project_row_keys fields values :
  forall row0 row,
    project_row fields values row0 = Ok row ->
    forall k, k ∈ Dict.keys row ->
              k ∈ Dict.keys row0 \/ (k ∈ fields /\ py_in k values = Ok true).
Proof.
  induction fields as [|field rest IH]; simpl; intros row0 row H k Hk.
  - injection H as <-. by left.
  - destruct (py_in field values) as [[|]|e] eqn:Hin; simpl in H; [| |done].
    + destruct (py_get values field VNone) as [v|e]; simpl in H; [|done].
      destruct (IH _ _ H k Hk) as [Hk0|[Hk1 Hk2]].
      * apply dict_keys_set in Hk0 as [->|Hk0]; [|by left].
        right. split; [apply list_elem_of_here | done].
      * right. split; [by apply list_elem_of_further | done].
    + destruct (IH _ _ H k Hk) as [Hk0|[Hk1 Hk2]]; [by left|].
      right. split; [by apply list_elem_of_further | done].
Qed.

Lemma project_row_dict fields kvs :
  forall row0, exists row, project_row fields (VDict kvs) row0 = Ok row.
Proof.
  induction fields as [|field rest IH]; simpl; intros row0; [by eexists|].
  destruct (Dict.mem field kvs); apply IH.
Qed.

Lemma build_row_Ok fields record row :
  build_row fields record = Ok row -> row_of_record fields record row.
Proof.
  unfold build_row. intros H.
  destruct (record_values record) as [values|e] eqn:Hv; simpl in H; [|done].
  destruct (project_row fields values []) as [row0|e] eqn:Hp; simpl in H; [|done].
  destruct (py_get values "generated_text" VNone) as [gt|e] eqn:Hg;
    simpl in H; [|done].
  injection H as <-. exists values, gt.
  split; [done|]. split; [done|]. split; [apply dict_get_set_eq|].
  intros k Hk Hne. apply dict_keys_set in Hk as [->|Hk]; [done|].
  destruct (project_row_keys _ _ _ _ Hp k Hk) as [Hnil|Hfield]; [|done].
  by apply not_elem_of_nil in Hnil.
Qed.

Lemma build_row_well_formed fields record :
  well_formed_record record -> exists row, build_row fields record = Ok row.
Proof.
  intros [kvs Hv]. unfold build_row. rewrite Hv. simpl.
  destruct (project_row_dict fields kvs []) as [row ->]. simpl. by eexists.
Qed.

(** A successful fetch, read backwards. *)
Lemma get_payload_data_Ok W ds mid props df :
  outcome (get_payload_data W ds mid props) = Ok df ->
  exists w data records items,
    outcome (get_last_run_date W mid) = Ok w
    /\ get_list_of_records W ds (or_none w) 500 = Ok data
    /\ py_get data "records" (VList []) = Ok records
    /\ py_iter records = Ok items
    /\ mapR (build_row (fields props)) items = Ok (df_rows df).
Proof.
  unfold get_payload_data, _get_client. intros H. invert_run H.
  injection H as <-. simpl. eauto 10.
Qed.

End record_fetcher.

(** C7 (as the code has it): the fetcher asks the payload store for at
    most 500 records and builds exactly one row per record of the
    listing the store answers, in order and without cutting the listing
    short, so the batch has at most 500 rows whenever the store keeps
    to the limit it is asked for.  The rows are the dictionaries handed
    to [pd.DataFrame]: every row holds the key [generated_text], with
    [None] when the record has none; every other key of a row is a
    profile field that the record's values hold, so a field the record
    lacks is left out of its row dictionary; and on a listing of
    well-formed records the fetch returns a batch. *)
Theorem record_batch_shape :
  forall (W : World) (ds mid : pyval) (props : AssetFieldProfile),
    (forall df,
        outcome (get_payload_data W ds mid props) = Ok df ->
        Forall (fun row => Dict.mem "generated_text" row = true) (df_rows df)
        /\ exists w data records items,
            outcome (get_last_run_date W mid) = Ok w
            /\ get_list_of_records W ds (or_none w) 500 = Ok data
            /\ py_get data "records" (VList []) = Ok records
            /\ py_iter records = Ok items
            /\ length (df_rows df) = length items
            /\ (honours_limit W -> (length (df_rows df) <= 500)%nat)
            /\ Forall2 (row_of_record (fields props)) items (df_rows df)
            /\ Forall2
                 (fun record row =>
                    forall kvs,
                      record_values record = Ok (VDict kvs) ->
                      (Dict.get "generated_text" kvs = None ->
                       Dict.get "generated_text" row = Some VNone)
                      /\ (forall k, k ∈ fields props -> k <> "generated_text" ->
                                    Dict.mem k kvs = false -> k ∉ Dict.keys row))
                 items (df_rows df))
    /\ (forall w data items,
          new_client W = Ok tt ->
          outcome (get_last_run_date W mid) = Ok w ->
          get_list_of_records W ds (or_none w) 500 = Ok data ->
          py_get data "records" (VList []) = Ok (VList items) ->
          Forall well_formed_record items ->
          exists df, outcome (get_payload_data W ds mid props) = Ok df).
Proof.
  intros W ds mid props. split.
  - intros df Hdf.
    destruct (get_payload_data_Ok W ds mid props df Hdf)
      as (w & data & records & items & Hw & Hd & Hr & Hi & Hrows).
    apply mapR_Ok_Forall2 in Hrows.
    assert (Hrows' : Forall2 (row_of_record (fields props)) items (df_rows df)).
    { eapply Forall2_impl; [exact Hrows|]. intros record row.
      apply build_row_Ok. }
    split.
    + clear -Hrows'. induction Hrows' as [|record row items rows Hrow _ IH];
        constructor; [|exact IH].
      destruct Hrow as (values & gt & _ & _ & Hgt & _).
      unfold Dict.mem. by rewrite Hgt.
    + exists w, data, records, items.
      repeat (split; [assumption|]).
      split; [symmetry; exact (Forall2_length _ _ _ Hrows)|].
      split.
      { intros Hlimit. rewrite <- (Forall2_length _ _ _ Hrows).
        pose proof (Hlimit ds (or_none w) 500%Z data records items) as Hle.
        specialize (Hle ltac:(lia) Hd Hr Hi). lia. }
      split; [exact Hrows'|].
      eapply Forall2_impl; [exact Hrows'|].
      intros record row (values & gt & Hv & Hg & Hgt & Hkeys) kvs Hkvs.
      rewrite Hv in Hkvs. injection Hkvs as ->. split.
      * intros Hnone. simpl in Hg. rewrite Hnone in Hg. by injection Hg as <-.
      * intros k Hk Hne Hmem Hin.
        destruct (Hkeys k Hin Hne) as [_ Hpresent].
        simpl in Hpresent. congruence.
  - intros w data items Hc Hw Hd Hr Hwf.
    destruct (mapR_Forall_Ok (build_row (fields props)) items) as [rows Hrows].
    { eapply Forall_impl; [exact Hwf|]. intros record.
      apply build_row_well_formed. }
    exists {| df_rows := rows |}.
    unfold get_payload_data, _get_client. py_simpl. rewrite Hc. py_simpl.
    rewrite Hw. py_simpl. rewrite Hd. py_simpl. rewrite Hr. py_simpl.
    cbn [py_iter]. py_simpl. by rewrite Hrows.
Qed.

(** A payload store that answers 501 records although it is asked for
    500: the fetch succeeds and the batch has 501 rows, one per record,
    so the bound of 500 rows does not hold for every listing. *)
Lemma oversized_listing_gives_oversized_batch :
  outcome (get_payload_data Scenario3.overfull_world (VStr "ds-1") (VStr "mon-1")
             Scenario.rag_profile)
  = Ok {| df_rows := repeat Scenario3.question_only_row 501 |}
  /\ length (df_rows {| df_rows := repeat Scenario3.question_only_row 501 |})
     = 501%nat
  /\ ~ (length (df_rows {| df_rows := repeat Scenario3.question_only_row 501 |})
        <= 500)%nat.
Proof.
  split; [vm_compute; reflexivity|].
  cbn [df_rows]. rewrite repeat_length. split; [reflexivity | lia].
Qed.

(* ===================================================================== *)
(** * The route handler ([compute_custom_metric]) *)
(* ===================================================================== *)

Section handler.
Context (W : World).

Lemma py_get_Raise v k d e : py_get v k d = Raise e -> e = no_attribute v "get".
Proof. destruct v; simpl; congruence. Qed.

Lemma py_get_Ok_dict v k d x : py_get v k d = Ok x -> exists kvs, v = VDict kvs.
Proof. destruct v; simpl; try done. eauto. Qed.

Lemma accepted_input_guard v :
  truthy v = true -> is_list v = true ->
  negb (truthy v) || negb (is_list v) || len_is_zero v = false.
Proof. intros Ht Hl. rewrite Ht, Hl. by destruct v as [| | | | |[|x xs]|]. Qed.

Lemma rejected_input_guard v :
  truthy v = false \/ is_list v = false ->
  negb (truthy v) || negb (is_list v) || len_is_zero v = true.
Proof.
  intros [H|H]; rewrite H; simpl; [done|]. by destruct (truthy v).
Qed.

(** What the handler does once it has accepted the trigger: the three
    stages in order, each behind its own [try]. *)
Lemma compute_custom_metric_accepted request sid mid ds rid :
  accepted_trigger request sid mid ds rid ->
  outcome (compute_custom_metric W request) =
    match outcome (prepare_stage W sid ds mid) with
    | Raise e => Raise (HTTPException 500 (str_exn e))
    | Ok (prompt_properties, payload_data) =>
        match outcome (evaluate_stage W payload_data prompt_properties) with
        | Raise e => Raise (HTTPException 500 (str_exn e))
        | Ok custom_metrics =>
            match outcome (store_metrics W mid rid custom_metrics) with
            | Raise _ =>
                Raise (PyExn UnboundLocalError
                         "cannot access local variable 'exc' where it is not associated with a value")
            | Ok _ => Ok (JSONResponse success_content 200)
            end
        end
    end.
Proof.
  intros (body & input & first & data & Hj & Hi & Ht & Hl & Hf & Hv
          & Hsid & Hmid & Hds & Hrid).
  unfold compute_custom_metric. py_simpl. rewrite Hj. py_simpl.
  rewrite Hi. py_simpl. rewrite (accepted_input_guard _ Ht Hl). py_simpl.
  rewrite Hf. py_simpl. rewrite Hv. py_simpl. rewrite Hsid. py_simpl.
  rewrite Hmid. py_simpl. rewrite Hds. py_simpl. rewrite Hrid. py_simpl.
  destruct (outcome (prepare_stage W sid ds mid)) as [[pp pd]|e]; py_simpl;
    [|done].
  destruct (outcome (evaluate_stage W pd pp)) as [cm|e]; py_simpl; [|done].
  by destruct (outcome (store_metrics W mid rid cm)).
Qed.

Lemma compute_custom_metric_invalid_json request e :
  json request = Raise e ->
  compute_custom_metric W request =
    ([], Raise (HTTPException 400 "Invalid JSON payload.")).
Proof. intros Hj. unfold compute_custom_metric. by rewrite Hj. Qed.

Lemma compute_custom_metric_bad_input request body v :
  json request = Ok body ->
  py_get body "input_data" VNone = Ok v ->
  truthy v = false \/ is_list v = false ->
  compute_custom_metric W request =
    ([], Raise (HTTPException 400
                  "'input_data' field is required and must be a non-empty list.")).
Proof.
  intros Hj Hi Hv. unfold compute_custom_metric. rewrite Hj. simpl.
  rewrite Hi. simpl. by rewrite (rejected_input_guard _ Hv).
Qed.

(** The handler never validates what [input_data[0]] holds: when it
    is not a mapping with a ["values"] mapping, the [AttributeError]
    of the first failing [.get] leaves the handler as it is. *)
Lemma compute_custom_metric_no_values request body first rest :
  json request = Ok body ->
  py_get body "input_data" VNone = Ok (VList (first :: rest)) ->
  (forall kvs, py_get first "values" VNone <> Ok (VDict kvs)) ->
  exists msg,
    compute_custom_metric W request = ([], Raise (PyExn AttributeError msg)).
Proof.
  intros Hj Hi Hv. unfold compute_custom_metric. rewrite Hj. simpl.
  rewrite Hi. simpl.
  destruct (py_get first "values" VNone) as [data|e] eqn:Hd; simpl.
  - destruct data; simpl; try by eexists. by destruct (Hv kvs).
  - apply py_get_Raise in Hd as ->. by eexists.
Qed.

(** Every run of the handler falls under one of five cases. *)
Lemma compute_custom_metric_cases request :
  (exists e, json request = Raise e)
  \/ (exists body c msg,
        json request = Ok body
        /\ outcome (compute_custom_metric W request) = Raise (PyExn c msg))
  \/ (exists body v,
        json request = Ok body
        /\ py_get body "input_data" VNone = Ok v
        /\ (truthy v = false \/ is_list v = false))
  \/ (exists sid mid ds rid, accepted_trigger request sid mid ds rid).
Proof.
  destruct (json request) as [body|e] eqn:Hj; [|left; eauto].
  right.
  destruct (py_get body "input_data" VNone) as [v|e] eqn:Hi.
  2:{ left. exists body. pose proof (py_get_Raise _ _ _ _ Hi) as He.
      unfold compute_custom_metric. py_simpl. rewrite Hj. py_simpl.
      rewrite Hi, He. by eexists _, _. }
  destruct (truthy v) eqn:Ht; [|right; left; eauto 10].
  destruct (is_list v) eqn:Hl; [|right; left; eauto 10].
  destruct v as [| | | | |[|first rest]|]; try done.
  destruct (py_get first "values" VNone) as [data|e] eqn:Hv.
  2:{ left. exists body.
      destruct (compute_custom_metric_no_values request body first rest Hj Hi)
        as [msg ->]; [by rewrite Hv | by eexists _, _]. }
  destruct data as [| | | | | |kvs].
  7:{ right. right. unfold accepted_trigger.
      eexists _, _, _, _, body, _, first, (VDict kvs).
      repeat split; try done. }
  all: left; exists body;
    destruct (compute_custom_metric_no_values request body first rest Hj Hi)
      as [msg ->]; [by rewrite Hv | by eexists _, _].
Qed.

End handler.

Section handler_trace.
Context (W : World).

(** The calls of a run that reaches the sink: those of the three
    stages, in order. *)
Lemma trace_compute_custom_metric request sid mid ds rid pp pd cm :
  accepted_trigger request sid mid ds rid ->
  outcome (prepare_stage W sid ds mid) = Ok (pp, pd) ->
  outcome (evaluate_stage W pd pp) = Ok cm ->
  trace (compute_custom_metric W request) =
    (trace (prepare_stage W sid ds mid)
     ++ trace (evaluate_stage W pd pp)
     ++ trace (store_metrics W mid rid cm))%list.
Proof.
  intros (body & input & first & data & Hj & Hi & Ht & Hl & Hf & Hv
          & Hsid & Hmid & Hds & Hrid) Hp He.
  unfold compute_custom_metric. py_simpl. rewrite Hj. py_simpl.
  rewrite Hi. py_simpl. rewrite (accepted_input_guard _ Ht Hl). py_simpl.
  rewrite Hf. py_simpl. rewrite Hv. py_simpl. rewrite Hsid. py_simpl.
  rewrite Hmid. py_simpl. rewrite Hds. py_simpl. rewrite Hrid. py_simpl.
  rewrite Hp. py_simpl. rewrite He. py_simpl.
  destruct (outcome (store_metrics W mid rid cm)); py_simpl;
    by rewrite ?app_nil_r.
Qed.

End handler_trace.

(** C8 (what the code does where the claim expects a storage-failure
    response): when the trigger is accepted, the payload is prepared and
    the evaluation succeeds, but [store_metrics] raises, the handler's
    [except] clause reads the name [exc], which nothing has bound; the
    handler ends in [UnboundLocalError] and chooses no response: no
    status, and no body with the failure's cause.  The evaluator had
    been called before the sink was. *)
Theorem store_failure_ends_in_unbound_local_error :
  forall (W : World) (request : Request) (sid mid ds rid : pyval)
         (pp : AssetFieldProfile) (pd : DataFrame)
         (cm : list (string * float)) (e : exn),
    accepted_trigger request sid mid ds rid ->
    outcome (prepare_stage W sid ds mid) = Ok (pp, pd) ->
    outcome (evaluate_stage W pd pp) = Ok cm ->
    outcome (store_metrics W mid rid cm) = Raise e ->
    outcome (compute_custom_metric W request) =
      Raise (PyExn UnboundLocalError
               "cannot access local variable 'exc' where it is not associated with a value")
    /\ status_of (outcome (compute_custom_metric W request)) = None
    /\ trace (compute_custom_metric W request) =
         (trace (prepare_stage W sid ds mid)
          ++ trace (evaluate_stage W pd pp)
          ++ trace (store_metrics W mid rid cm))%list.
Proof.
  intros W request sid mid ds rid pp pd cm e Hacc Hp He Hs.
  rewrite (compute_custom_metric_accepted W request sid mid ds rid Hacc).
  rewrite Hp, He, Hs. repeat split.
  by apply trace_compute_custom_metric.
Qed.

(** C9 (as the code has it): the handler answers 400 exactly when the
    body is not JSON or when [input_data] is missing, falsy or not a
    list; it does not look into [input_data[0]], so an entry without a
    ["values"] mapping ends the handler in [AttributeError] and no
    status is chosen; and a 500 is chosen only after a pipeline stage
    has failed. *)
Theorem handler_status_codes :
  forall (W : World) (request : Request),
    (forall e,
        json request = Raise e ->
        outcome (compute_custom_metric W request) =
          Raise (HTTPException 400 "Invalid JSON payload."))
    /\ (forall body v,
          json request = Ok body ->
          py_get body "input_data" VNone = Ok v ->
          truthy v = false \/ is_list v = false ->
          outcome (compute_custom_metric W request) =
            Raise (HTTPException 400
                     "'input_data' field is required and must be a non-empty list."))
    /\ (status_of (outcome (compute_custom_metric W request)) = Some 400%Z ->
        (exists e, json request = Raise e)
        \/ (exists body v,
              json request = Ok body
              /\ py_get body "input_data" VNone = Ok v
              /\ (truthy v = false \/ is_list v = false)))
    /\ (forall body first rest,
          json request = Ok body ->
          py_get body "input_data" VNone = Ok (VList (first :: rest)) ->
          (forall kvs, py_get first "values" VNone <> Ok (VDict kvs)) ->
          (exists msg,
              outcome (compute_custom_metric W request) =
                Raise (PyExn AttributeError msg))
          /\ status_of (outcome (compute_custom_metric W request)) = None)
    /\ (status_of (outcome (compute_custom_metric W request)) = Some 500%Z ->
        exists sid mid ds rid,
          accepted_trigger request sid mid ds rid
          /\ ((exists e, outcome (prepare_stage W sid ds mid) = Raise e)
              \/ (exists pp pd e,
                    outcome (prepare_stage W sid ds mid) = Ok (pp, pd)
                    /\ outcome (evaluate_stage W pd pp) = Raise e)
              \/ (exists pp pd cm e,
                    outcome (prepare_stage W sid ds mid) = Ok (pp, pd)
                    /\ outcome (evaluate_stage W pd pp) = Ok cm
                    /\ outcome (store_metrics W mid rid cm) = Raise e))).
Proof.
  intros W request. split; [|split; [|split; [|split]]].
  - intros e Hj. by rewrite (compute_custom_metric_invalid_json W request e Hj).
  - intros body v Hj Hi Hv.
    by rewrite (compute_custom_metric_bad_input W request body v Hj Hi Hv).
  - intros Hst.
    destruct (compute_custom_metric_cases W request)
      as [Hj|[(body & c & msg & Hj & Ho)|[(body & v & Hj & Hi & Hv)|Hacc]]].
    + by left.
    + by rewrite Ho in Hst.
    + right. eauto 10.
    + destruct Hacc as (sid & mid & ds & rid & Hacc).
      rewrite (compute_custom_metric_accepted W request sid mid ds rid Hacc) in Hst.
      destruct (outcome (prepare_stage W sid ds mid)) as [[pp pd]|e]; [|done].
      destruct (outcome (evaluate_stage W pd pp)) as [cm|e]; [|done].
      by destruct (outcome (store_metrics W mid rid cm)).
  - intros body first rest Hj Hi Hv.
    destruct (compute_custom_metric_no_values W request body first rest Hj Hi Hv)
      as [msg ->].
    split; [by exists msg | done].
  - intros Hst.
    destruct (compute_custom_metric_cases W request)
      as [[e Hj]|[(body & c & msg & Hj & Ho)|[(body & v & Hj & Hi & Hv)|Hacc]]].
    + by rewrite (compute_custom_metric_invalid_json W request e Hj) in Hst.
    + by rewrite Ho in Hst.
    + by rewrite (compute_custom_metric_bad_input W request body v Hj Hi Hv) in Hst.
    + destruct Hacc as (sid & mid & ds & rid & Hacc).
      exists sid, mid, ds, rid. split; [done|].
      rewrite (compute_custom_metric_accepted W request sid mid ds rid Hacc) in Hst.
      destruct (outcome (prepare_stage W sid ds mid)) as [[pp pd]|e];
        [|left; by exists e].
      destruct (outcome (evaluate_stage W pd pp)) as [cm|e] eqn:He;
        [|right; left; by exists pp, pd, e].
      destruct (outcome (store_metrics W mid rid cm)) as [u|e] eqn:Hs; [done|].
      right. right. by exists pp, pd, cm, e.
Qed.

(* ===================================================================== *)
(** * Worked examples on the concrete deployment *)
(* ===================================================================== *)

Lemma demo_world_honours_limit : honours_limit Demo.world.
Proof.
  intros ds start limit data records items Hlimit Hd Hr Hi.
  simpl in Hd. injection Hd as <-. simpl in Hr. injection Hr as <-.
  simpl in Hi. injection Hi as <-.
  rewrite length_firstn. lia.
Qed.

(** The run registry is unreachable: the failure is not absorbed, the
    lookup raises it. *)
Lemma transport_failure_reaches_caller :
  list_runs (Demo.with_runs (Raise Demo.connection_error) Demo.world) (VStr "mon-1")
    = Raise Demo.connection_error
  /\ outcome (get_last_run_date
                (Demo.with_runs (Raise Demo.connection_error) Demo.world)
                (VStr "mon-1"))
     = Raise Demo.connection_error
  /\ ~ absent (outcome (get_last_run_date
                          (Demo.with_runs (Raise Demo.connection_error) Demo.world)
                          (VStr "mon-1"))).
Proof. split; [reflexivity|]. split; [reflexivity|]. intros H. exact H. Qed.

(** A trigger whose first entry has no ["values"]: the handler does not
    answer 400, it ends in [AttributeError]. *)
Lemma missing_values_is_not_answered_400 :
  json Demo.request_without_values
    = Ok (VDict [("input_data", VList [VDict []])])
  /\ outcome (compute_custom_metric Demo.world Demo.request_without_values)
     = Raise (PyExn AttributeError "'NoneType' object has no attribute 'get'")
  /\ status_of (outcome (compute_custom_metric Demo.world Demo.request_without_values))
     <> Some 400%Z.
Proof. split; [reflexivity|]. split; [reflexivity|]. discriminate. Qed.

Lemma watermark_lookup_witness :
  outcome (get_last_run_date
             (Demo.with_runs (Ok (runs_payload [])) Demo.world) (VStr "mon-1"))
    = Ok (VStr "")
  /\ outcome (get_last_run_date
                (Demo.with_runs (Raise Demo.connection_error) Demo.world)
                (VStr "mon-1"))
     = Raise Demo.connection_error
  /\ outcome (get_last_run_date
                (Demo.with_runs (Ok (VDict [])) Demo.world) (VStr "mon-1"))
     = Raise (PyExn KeyError "'runs'").
Proof.
  split; [|split].
  - apply (proj1 (watermark_lookup_absorbs_index_and_attribute_errors
                    (Demo.with_runs (Ok (runs_payload [])) Demo.world)
                    (VStr "mon-1"))
             (runs_payload []) (VList []) []); reflexivity.
  - apply (proj1 (proj2 (proj2 (watermark_lookup_absorbs_index_and_attribute_errors
                    (Demo.with_runs (Raise Demo.connection_error) Demo.world)
                    (VStr "mon-1"))))).
    + reflexivity.
    + intros msg. split; discriminate.
  - apply (proj2 (proj2 (proj2 (proj2
             (watermark_lookup_absorbs_index_and_attribute_errors
                (Demo.with_runs (Ok (VDict [])) Demo.world) (VStr "mon-1")))))
             []); reflexivity.
Defined.

Lemma run_evaluator_empty_batch_witness :
  df_empty {| df_rows := [] |} = true
  /\ run_evaluator Demo.world {| df_rows := [] |}
       {| problem_type := VStr RAG; feature_fields := ["question"];
          context_fields := Some ["context"]; fields := ["context"; "question"] |}
     = ([], Ok []).
Proof.
  split; [reflexivity|].
  apply (run_evaluator_empty_batch Demo.world {| df_rows := [] |}). reflexivity.
Defined.

Lemma rag_profile_witness :
  exists p cfs,
    outcome (extract_prompt_fields Demo.world (VStr "sub-1")) = Ok p
    /\ outcome (extract_prompt_fields
                  (Demo.with_subscription Demo.subscription_reordered Demo.world)
                  (VStr "sub-1")) = Ok p
    /\ context_fields p = Some cfs
    /\ (forall x, x ∈ cfs <-> x ∈ ["documents"; "context"])
    /\ (forall x, x ∈ feature_fields p <->
                  x ∈ ["question"; "context"; "question"]
                  /\ x ∉ ["documents"; "context"]).
Proof.
  apply (proj2 rag_profile_invariants
           Demo.world
           (Demo.with_subscription Demo.subscription_reordered Demo.world)
           (VStr "sub-1")
           ["question"; "context"; "question"] ["documents"; "context"]
           ["question"; "question"; "context"] ["context"; "documents"]);
    try reflexivity.
  - apply perm_skip, perm_swap.
  - apply perm_swap.
Defined.

Lemma non_rag_profile_witness :
  outcome (extract_prompt_fields
             (Demo.with_subscription Demo.plain_subscription Demo.world)
             (VStr "sub-2"))
    = Ok {| problem_type := VStr "generation";
            feature_fields := ["audience"; "question"];
            context_fields := None;
            fields := ["audience"; "question"] |}
  /\ config_context_fields
       (evaluator_config
          {| problem_type := VStr "generation";
             feature_fields := ["audience"; "question"];
             context_fields := None;
             fields := ["audience"; "question"] |}) = [].
Proof.
  assert (H : outcome (extract_prompt_fields
                         (Demo.with_subscription Demo.plain_subscription Demo.world)
                         (VStr "sub-2"))
              = Ok {| problem_type := VStr "generation";
                      feature_fields := ["audience"; "question"];
                      context_fields := None;
                      fields := ["audience"; "question"] |})
    by (vm_compute; reflexivity).
  split; [exact H|].
  apply (non_rag_profile_has_no_context _ _ _ H). reflexivity.
Defined.

Lemma record_batch_witness :
  exists df,
    outcome (get_payload_data Demo.world (VStr "ds-1") (VStr "mon-1")
               {| problem_type := VStr RAG; feature_fields := ["question"];
                  context_fields := Some ["context"];
                  fields := ["context"; "question"] |}) = Ok df
    /\ (length (df_rows df) <= 500)%nat
    /\ Forall (fun row => Dict.mem "generated_text" row = true) (df_rows df).
Proof.
  eexists. split; [vm_compute; reflexivity|].
  pose proof (proj1 (record_batch_shape Demo.world (VStr "ds-1") (VStr "mon-1")
                       {| problem_type := VStr RAG; feature_fields := ["question"];
                          context_fields := Some ["context"];
                          fields := ["context"; "question"] |})) as H.
  specialize (H _ ltac:(vm_compute; reflexivity)).
  destruct H as (Hgt & w & data & records & items & _ & _ & _ & _ & _ & Hlen & _).
  split; [exact (Hlen demo_world_honours_limit) | exact Hgt].
Defined.

Lemma demo_trigger_accepted :
  accepted_trigger Demo.request
    (VStr "sub-1") (VStr "mon-1") (VStr "ds-1") (VStr "run-1").
Proof.
  unfold accepted_trigger.
  eexists _, _, _, _. repeat split; reflexivity.
Defined.

Lemma store_failure_witness :
  outcome (compute_custom_metric
             (Demo.with_store (Raise Demo.sink_error) Demo.world) Demo.request)
    = Raise (PyExn UnboundLocalError
               "cannot access local variable 'exc' where it is not associated with a value")
  /\ status_of (outcome (compute_custom_metric
                           (Demo.with_store (Raise Demo.sink_error) Demo.world)
                           Demo.request)) = None.
Proof.
  destruct (store_failure_ends_in_unbound_local_error
              (Demo.with_store (Raise Demo.sink_error) Demo.world) Demo.request
              (VStr "sub-1") (VStr "mon-1") (VStr "ds-1") (VStr "run-1")
              _ _ _ (PyExn RuntimeError "Failed to store metrics data")
              demo_trigger_accepted
              ltac:(vm_compute; reflexivity)
              ltac:(vm_compute; reflexivity)
              ltac:(vm_compute; reflexivity)) as (H1 & H2 & _).
  split; [exact H1 | exact H2].
Defined.

Lemma handler_status_codes_witness :
  outcome (compute_custom_metric Demo.world {| json := Raise Demo.connection_error |})
    = Raise (HTTPException 400 "Invalid JSON payload.")
  /\ outcome (compute_custom_metric Demo.world Demo.request_without_input_data)
     = Raise (HTTPException 400
                "'input_data' field is required and must be a non-empty list.")
  /\ status_of (outcome (compute_custom_metric Demo.world Demo.request_without_values))
     = None.
Proof.
  split; [|split].
  - apply (proj1 (handler_status_codes Demo.world
                    {| json := Raise Demo.connection_error |})
             Demo.connection_error). reflexivity.
  - apply (proj1 (proj2 (handler_status_codes Demo.world
                           Demo.request_without_input_data))
             (VDict [("inputs", VList [])]) VNone); try reflexivity.
    by left.
  - apply (proj1 (proj2 (proj2 (proj2 (handler_status_codes Demo.world
                                         Demo.request_without_values))))
             (VDict [("input_data", VList [VDict []])]) (VDict []) []);
      try reflexivity.
    intros kvs. discriminate.
Defined.


(** X25: the worker wrapper installs the loop policy and a new event
    loop before the job makes its first call, and hands back the job's
    own result or exception unchanged. *)
Lemma run_in_thread_sets_loop_first {A} (job : M A) :
  trace (run_in_thread job)
    = (CallSetEventLoopPolicy :: CallNewEventLoop :: trace job)
  /\ outcome (run_in_thread job) = outcome job.
Proof.
  unfold run_in_thread. destruct job as [t r]. by destruct r.
Qed.

(* ===================================================================== *)
(** * Metrics Sink ([store_metrics]) *)
(* ===================================================================== *)

(** X1: [store_metrics] either stores and returns, or raises
    [RuntimeError("Failed to store metrics data")], whatever went wrong
    underneath; when the manager cannot be built, [store_metric_data]
    is not called. *)
Theorem store_metrics_wraps_every_failure :
  forall (W : World) (mid rid : pyval) (metrics : list (string * float)),
    (store_metrics W mid rid metrics
       = ([CallNewMetricsManager; CallStoreMetricData mid rid metrics], Ok tt)
     /\ new_metrics_manager W = Ok tt
     /\ store_metric_data W mid rid metrics = Ok tt)
    \/ (store_metrics W mid rid metrics
          = ([CallNewMetricsManager],
             Raise (PyExn RuntimeError "Failed to store metrics data"))
        /\ exists e, new_metrics_manager W = Raise e)
    \/ (store_metrics W mid rid metrics
          = ([CallNewMetricsManager; CallStoreMetricData mid rid metrics],
             Raise (PyExn RuntimeError "Failed to store metrics data"))
        /\ new_metrics_manager W = Ok tt
        /\ exists e, store_metric_data W mid rid metrics = Raise e).
Proof.
  intros W mid rid metrics. unfold store_metrics, try_except, bind, perform.
  destruct (new_metrics_manager W) as [[]|e] eqn:Hm.
  - destruct (store_metric_data W mid rid metrics) as [[]|e] eqn:Hs.
    + left. by repeat split.
    + right. right. repeat split. by exists e.
  - right. left. split; [done | by exists e].
Qed.

(* ===================================================================== *)
(** * Field Resolver: failures and defaults *)
(* ===================================================================== *)

Section field_resolver_errors.
Context (W : World).

(** A successful run of the resolver, read backwards in full. *)
Lemma extract_prompt_fields_run sid p :
  outcome (extract_prompt_fields W sid) = Ok p ->
  exists payload entity asset asset_props ffv (F : gset string),
    subscriptions_get W sid = Ok payload
    /\ py_getitem payload "entity" = Ok entity
    /\ py_get entity "asset" (VDict []) = Ok asset
    /\ py_get entity "asset_properties" (VDict []) = Ok asset_props
    /\ py_get asset "problem_type" VNone = Ok (problem_type p)
    /\ py_get asset_props "feature_fields" (VList []) = Ok ffv
    /\ py_set ffv = Ok F
    /\ ((py_eq_str (problem_type p) RAG = true
         /\ exists cfv (C : gset string),
             py_get asset_props "context_fields" (VList []) = Ok cfv
             /\ py_set cfv = Ok C
             /\ feature_fields p = sorted (F ∖ C)
             /\ context_fields p = Some (sorted C)
             /\ fields p = sorted ((F ∖ C) ∪ C))
        \/ (py_eq_str (problem_type p) RAG = false
            /\ feature_fields p = sorted F
            /\ context_fields p = None
            /\ fields p = sorted F)).
Proof.
  unfold extract_prompt_fields, _get_client. intros H. invert_run H.
  match goal with Hp : Ok (_, _) = Ok _ |- _ => injection Hp as <- end.
  cbn [fst snd] in *.
  destruct (py_eq_str _ RAG) eqn:Hrag; invert_run H; injection H as <-;
    cbn [problem_type feature_fields context_fields fields].
  - eexists _, _, _, _, _, _. repeat (split; [eassumption|]).
    left. split; [exact Hrag|]. eexists _, _.
    repeat (split; [eassumption|]). repeat split.
  - eexists _, _, _, _, _, _. repeat (split; [eassumption|]).
    right. repeat split. exact Hrag.
Qed.

Lemma resolver_navigation_fails sid payload :
  new_client W = Ok tt ->
  subscriptions_get W sid = Ok payload ->
  (exists e,
      bindR (py_getitem payload "entity") (fun entity =>
      bindR (py_get entity "asset" (VDict [])) (fun asset =>
      bindR (py_get entity "asset_properties" (VDict [])) (fun _ =>
      py_get asset "problem_type" VNone))) = Raise e) ->
  extract_prompt_fields W sid =
    ([CallGetClient; CallSubscriptionsGet sid],
     Raise (PyExn RuntimeError "Invalid subscription payload structure")).
Proof.
  intros Hc Hs [e He]. unfold extract_prompt_fields, _get_client.
  unfold bind, perform, try_except, lift, raise. rewrite Hc, Hs.
  destruct (py_getitem payload "entity") as [entity|e1]; [|done].
  cbn [bindR] in He.
  destruct (py_get entity "asset" (VDict [])) as [asset|e2]; [|done].
  cbn [bindR] in He.
  destruct (py_get entity "asset_properties" (VDict [])) as [props|e3]; [|done].
  cbn [bindR] in He. by rewrite He.
Qed.

Lemma sorted_empty : sorted ∅ = [].
Proof. unfold sorted. by rewrite elements_empty. Qed.

End field_resolver_errors.

(** X2: a subscription answer with no ["entity"], with an [entity] that
    is not a mapping, or with an [asset] that is not a mapping fails
    with [RuntimeError("Invalid subscription payload structure")]; an
    [asset_properties] that is present but not a mapping is read outside
    the [try], and the resolver fails with the bare [AttributeError]. *)
Theorem subscription_structure_errors :
  forall (W : World) (sid payload : pyval),
    new_client W = Ok tt ->
    subscriptions_get W sid = Ok payload ->
    (forall e,
        py_getitem payload "entity" = Raise e ->
        outcome (extract_prompt_fields W sid)
          = Raise (PyExn RuntimeError "Invalid subscription payload structure"))
    /\ (forall entity,
          py_getitem payload "entity" = Ok entity ->
          (forall kvs, entity <> VDict kvs) ->
          outcome (extract_prompt_fields W sid)
            = Raise (PyExn RuntimeError "Invalid subscription payload structure"))
    /\ (forall kvs asset,
          py_getitem payload "entity" = Ok (VDict kvs) ->
          Dict.get "asset" kvs = Some asset ->
          (forall a, asset <> VDict a) ->
          outcome (extract_prompt_fields W sid)
            = Raise (PyExn RuntimeError "Invalid subscription payload structure"))
    /\ (forall kvs a asset_props,
          py_getitem payload "entity" = Ok (VDict kvs) ->
          py_get (VDict kvs) "asset" (VDict []) = Ok (VDict a) ->
          Dict.get "asset_properties" kvs = Some asset_props ->
          (forall props, asset_props <> VDict props) ->
          outcome (extract_prompt_fields W sid)
            = Raise (no_attribute asset_props "get")).
Proof.
  intros W sid payload Hc Hs. split; [|split; [|split]].
  - intros e He. rewrite (resolver_navigation_fails W sid payload Hc Hs); [done|].
    exists e. by rewrite He.
  - intros entity He Hne.
    rewrite (resolver_navigation_fails W sid payload Hc Hs); [done|].
    rewrite He. cbn [bindR].
    destruct entity; try (by eexists). by destruct (Hne kvs).
  - intros kvs asset He Ha Hne.
    rewrite (resolver_navigation_fails W sid payload Hc Hs); [done|].
    rewrite He. cbn [bindR py_get]. rewrite Ha.
    destruct asset; try (by eexists). by destruct (Hne kvs0).
  - intros kvs a asset_props He Ha Hp Hne.
    unfold extract_prompt_fields, _get_client. py_simpl. rewrite Hc. py_simpl.
    rewrite Hs. py_simpl. rewrite He. py_simpl. rewrite Ha. py_simpl.
    cbn [py_get]. rewrite Hp. py_simpl.
    destruct asset_props; try done. by destruct (Hne kvs0).
Qed.

(** X3: a failure of the client or of the subscription lookup is not
    wrapped: the resolver raises it as it is, after the one call that
    failed. *)
Theorem subscription_lookup_failure_is_not_wrapped :
  forall (W : World) (sid : pyval) (e : exn),
    (new_client W = Raise e ->
     extract_prompt_fields W sid = ([CallGetClient], Raise e))
    /\ (new_client W = Ok tt ->
        subscriptions_get W sid = Raise e ->
        extract_prompt_fields W sid
          = ([CallGetClient; CallSubscriptionsGet sid], Raise e)).
Proof.
  intros W sid e. unfold extract_prompt_fields, _get_client, bind, perform.
  split.
  - by intros ->.
  - by intros -> ->.
Qed.

(** X4: for a problem type other than RAG the subscription's
    [context_fields] are not read: the profile's feature fields are the
    distinct [feature_fields] of the subscription, sorted, and a field
    that is also listed as context stays among them. *)
Theorem non_rag_ignores_context_fields :
  forall (W : World) (sid pt : pyval) (ff cf : list string),
    new_client W = Ok tt ->
    subscriptions_get W sid = Ok (subscription_payload pt ff cf) ->
    py_eq_str pt RAG = false ->
    exists p,
      outcome (extract_prompt_fields W sid) = Ok p
      /\ problem_type p = pt
      /\ context_fields p = None
      /\ (forall x, x ∈ feature_fields p <-> x ∈ ff)
      /\ NoDup (feature_fields p)
      /\ Sorted str_le (feature_fields p).
Proof.
  intros W sid pt ff cf Hc Hs Hpt.
  pose proof (extract_prompt_fields_well_formed W sid pt ff cf Hc Hs) as E.
  rewrite Hpt in E. eexists. split; [exact E|]. cbn.
  split; [done|]. split; [done|]. split; [|split].
  - intros x. by rewrite elem_of_sorted, elem_of_list_to_set.
  - apply NoDup_sorted.
  - apply Sorted_sorted.
Qed.

(** X5: what the subscription leaves out is read as empty: without
    [feature_fields] (or without [asset_properties] altogether) the
    profile has no feature fields, and a RAG subscription without
    [context_fields] has an empty context list and [fields] equal to its
    feature fields. *)
Theorem missing_field_lists_default_to_empty :
  forall (W : World) (sid : pyval) (p : AssetFieldProfile)
         (payload entity : pyval) (props : list (string * pyval)),
    outcome (extract_prompt_fields W sid) = Ok p ->
    subscriptions_get W sid = Ok payload ->
    py_getitem payload "entity" = Ok entity ->
    py_get entity "asset_properties" (VDict []) = Ok (VDict props) ->
    (Dict.get "feature_fields" props = None -> feature_fields p = [])
    /\ (Dict.get "context_fields" props = None ->
        py_eq_str (problem_type p) RAG = true ->
        context_fields p = Some [] /\ fields p = feature_fields p).
Proof.
  intros W sid p payload entity props Hp Hs He Hprops.
  destruct (extract_prompt_fields_run W sid p Hp)
    as (payload' & entity' & asset & asset_props & ffv & F
        & Hs' & He' & Ha & Hprops' & Hpt & Hff & HF & Hcases).
  rewrite Hs in Hs'. injection Hs' as <-.
  rewrite He in He'. injection He' as <-.
  rewrite Hprops in Hprops'. injection Hprops' as <-.
  split.
  - intros Hnone. cbn [py_get] in Hff. rewrite Hnone in Hff.
    injection Hff as <-. injection HF as <-.
    destruct Hcases as [(_ & cfv & C & _ & _ & -> & _)|(_ & -> & _)].
    + replace ((∅ : gset string) ∖ C) with (∅ : gset string) by set_solver.
      apply sorted_empty.
    + apply sorted_empty.
  - intros Hnone Hrag.
    destruct Hcases as [(_ & cfv & C & Hcf & HC & -> & -> & ->)|(Hno & _)];
      [|congruence].
    cbn [py_get] in Hcf. rewrite Hnone in Hcf. injection Hcf as <-.
    injection HC as <-.
    split.
    + by rewrite sorted_empty.
    + f_equal. set_solver.
Qed.

(* ===================================================================== *)
(** * Watermark Tracker: selection and failures *)
(* ===================================================================== *)

Section watermark_selection.
Context (W : World).

Lemma find_first_finished (before after : list Run) (r : Run) :
  Forall (fun x => finished x = false) before ->
  finished r = true ->
  List.find finished (before ++ r :: after) = Some r.
Proof.
  intros Hb Hr. induction Hb as [|x before Hx _ IH]; simpl.
  - by rewrite Hr.
  - by rewrite Hx.
Qed.

Lemma run_is_finished_Raise item e :
  run_is_finished item = Raise e -> exists msg, e = PyExn AttributeError msg.
Proof.
  unfold run_is_finished. intros H.
  destruct (py_get item "entity" (VDict [])) as [entity|e1] eqn:H1.
  2:{ apply py_get_Raise in H1. injection H as <-. subst. by eexists. }
  cbn [bindR] in H.
  destruct (py_get entity "status" (VDict [])) as [status|e2] eqn:H2.
  2:{ apply py_get_Raise in H2. injection H as <-. subst. by eexists. }
  cbn [bindR] in H.
  destruct (py_get status "state" VNone) as [state|e3] eqn:H3; [done|].
  apply py_get_Raise in H3. injection H as <-. subst. by eexists.
Qed.

Lemma filterR_Raise {A} (p : A -> result bool) (xs : list A) e :
  filterR p xs = Raise e -> exists x, x ∈ xs /\ p x = Raise e.
Proof.
  induction xs as [|x xs IH]; simpl; [done|]. intros H.
  destruct (p x) as [b|e1] eqn:Hp.
  - destruct (filterR p xs) as [ys|e2]; [done|].
    injection H as ->. destruct (IH eq_refl) as (y & Hy & Hpy).
    exists y. split; [by apply list_elem_of_further | done].
  - injection H as ->. exists x. split; [apply list_elem_of_here | done].
Qed.

Lemma filterR_Ok {A} (p : A -> result bool) (xs ys : list A) :
  filterR p xs = Ok ys ->
  Forall (fun x => exists b, p x = Ok b) xs
  /\ Forall (fun y => p y = Ok true) ys.
Proof.
  revert ys. induction xs as [|x xs IH]; simpl; intros ys H.
  - injection H as <-. by split.
  - destruct (p x) as [b|e1] eqn:Hp; [|done].
    destruct (filterR p xs) as [zs|e2]; [|done].
    destruct (IH zs eq_refl) as [H1 H2]. injection H as <-.
    split; [constructor; eauto|].
    destruct b; [by constructor | done].
Qed.

Lemma run_is_finished_not_dict item :
  (forall kvs, item <> VDict kvs) ->
  exists e, run_is_finished item = Raise e.
Proof.
  intros Hne. unfold run_is_finished.
  destruct item; try (by eexists). by destruct (Hne kvs).
Qed.

(** The outcome of the lookup once the registry has handed over runs
    that can be iterated. *)
Lemma get_last_run_date_on_listing mid rd runs items :
  new_client W = Ok tt ->
  list_runs W mid = Ok rd ->
  py_getitem rd "runs" = Ok runs ->
  py_iter runs = Ok items ->
  outcome (get_last_run_date W mid) =
    match filterR run_is_finished items with
    | Raise _ => Ok (VStr "")
    | Ok [] => Ok (VStr "")
    | Ok (first :: _) =>
        match bindR (py_get first "metadata" (VDict [])) (fun metadata =>
              py_get metadata "created_at" (VStr "")) with
        | Ok v => Ok v
        | Raise _ => Ok (VStr "")
        end
    end.
Proof.
  intros Hc Hl Hr Hi.
  destruct (filterR run_is_finished items) as [finished_runs|e] eqn:Hf.
  - pose proof (get_last_run_date_body_selected W mid _ _ _ _ Hc Hl Hr Hi Hf)
      as Hbody.
    destruct finished_runs as [|first rest].
    + by apply get_last_run_date_returns.
    + destruct (bindR _ _) as [v|e] eqn:Hv.
      * by apply get_last_run_date_returns.
      * assert (exists msg, e = PyExn AttributeError msg) as [msg ->].
        { destruct (py_get first "metadata" (VDict [])) as [md|e1] eqn:H1;
            cbn [bindR] in Hv.
          - apply py_get_Raise in Hv. subst. by eexists.
          - injection Hv as <-. apply py_get_Raise in H1. subst. by eexists. }
        eapply get_last_run_date_absorbs; [exact Hbody | by right].
  - destruct (filterR_Raise _ _ _ Hf) as (x & _ & Hx).
    destruct (run_is_finished_Raise _ _ Hx) as [msg ->].
    eapply get_last_run_date_absorbs; [|by right].
    unfold get_last_run_date_body, _get_client.
    py_simpl. rewrite Hc. py_simpl. rewrite Hl. py_simpl. rewrite Hr.
    py_simpl. rewrite Hi. py_simpl. by rewrite Hf.
Qed.

End watermark_selection.

(** X6: the watermark is the creation time of the first finished run in
    the order the registry lists the runs: runs listed before it that
    are not finished are passed over, and no run listed after it is
    looked at, whatever its state or time. *)
Theorem watermark_is_first_finished_in_listing_order :
  forall (W : World) (mid : pyval) (before after : list Run) (r : Run),
    new_client W = Ok tt ->
    list_runs W mid = Ok (runs_payload (before ++ r :: after)) ->
    Forall (fun x => finished x = false) before ->
    finished r = true ->
    outcome (get_last_run_date W mid)
      = Ok (match run_created_at r with
            | Some t => VStr t
            | None => VStr ""
            end).
Proof.
  intros W mid before after r Hc Hl Hb Hr.
  rewrite (get_last_run_date_well_formed W mid _ Hc Hl).
  by rewrite (find_first_finished before after r Hb Hr).
Qed.

(** X7: one entry of the run listing that is not a mapping, anywhere in
    the listing, makes the lookup return the empty watermark, even when
    a finished run with a timestamp is listed. *)
Theorem malformed_run_discards_watermark :
  forall (W : World) (mid rd runs : pyval) (items : list pyval),
    new_client W = Ok tt ->
    list_runs W mid = Ok rd ->
    py_getitem rd "runs" = Ok runs ->
    py_iter runs = Ok items ->
    Exists (fun item => forall kvs, item <> VDict kvs) items ->
    outcome (get_last_run_date W mid) = Ok (VStr "").
Proof.
  intros W mid rd runs items Hc Hl Hr Hi Hbad.
  rewrite (get_last_run_date_on_listing W mid rd runs items Hc Hl Hr Hi).
  destruct (filterR run_is_finished items) as [finished_runs|e] eqn:Hf; [|done].
  exfalso. destruct (filterR_Ok _ _ _ Hf) as [Hall _].
  apply Exists_exists in Hbad as (item & Hin & Hne).
  rewrite Forall_forall in Hall.
  destruct (Hall item Hin) as [b Hb].
  destruct (run_is_finished_not_dict item Hne) as [e He]. congruence.
Qed.

(** X8: the lookup never raises [IndexError] or [AttributeError], and
    once the registry has answered with runs that can be iterated it
    does not raise at all. *)
Theorem watermark_lookup_failures :
  forall (W : World) (mid : pyval),
    (forall c msg,
        outcome (get_last_run_date W mid) = Raise (PyExn c msg) ->
        c <> IndexError /\ c <> AttributeError)
    /\ (forall rd runs items,
          new_client W = Ok tt ->
          list_runs W mid = Ok rd ->
          py_getitem rd "runs" = Ok runs ->
          py_iter runs = Ok items ->
          exists v, outcome (get_last_run_date W mid) = Ok v).
Proof.
  intros W mid. split.
  - intros c msg. unfold get_last_run_date. rewrite outcome_try_except.
    destruct (outcome (get_last_run_date_body W mid)) as [v|e]; [done|].
    destruct e as [[] m|]; simpl; intros H; try done;
      injection H as <- <-; by split.
  - intros rd runs items Hc Hl Hr Hi.
    rewrite (get_last_run_date_on_listing W mid rd runs items Hc Hl Hr Hi).
    destruct (filterR run_is_finished items) as [[|first rest]|e];
      try (by eexists).
    destruct (bindR _ _); by eexists.
Qed.

(* ===================================================================== *)
(** * Incremental Record Fetcher: failures and row contents *)
(* ===================================================================== *)

Section fetcher_rows.

(** The comprehension over a mapping: a key of the row is a requested
    field that the values hold, with the value they hold. *)
Lemma project_row_get fields kvs :
  forall row0 row,
    project_row fields (VDict kvs) row0 = Ok row ->
    forall k,
      Dict.get k row =
        if bool_decide (k ∈ fields) && Dict.mem k kvs
        then Dict.get k kvs
        else Dict.get k row0.
Proof.
  induction fields as [|field rest IH]; intros row0 row H k.
  - injection H as <-. done.
  - cbn [project_row py_in bindR] in H.
    destruct (Dict.mem field kvs) eqn:Hmem.
    + cbn [py_get bindR] in H. rewrite (IH _ _ H k).
      destruct (decide (k = field)) as [->|Hne].
      * rewrite (bool_decide_eq_true_2 (field ∈ field :: rest))
          by apply list_elem_of_here.
        rewrite Hmem. cbn [andb].
        unfold Dict.mem in Hmem.
        destruct (Dict.get field kvs) as [x|] eqn:Hx; [|done].
        rewrite dict_get_set_eq. by destruct (_ && _).
      * rewrite dict_get_set_ne by done.
        destruct (decide (k ∈ rest)) as [Hin|Hnin].
        -- rewrite !bool_decide_eq_true_2;
             [done | by apply list_elem_of_further | done].
        -- rewrite !bool_decide_eq_false_2;
             [done | rewrite elem_of_cons; intros [?|?]; done | done].
    + rewrite (IH _ _ H k).
      destruct (decide (k = field)) as [->|Hne].
      * by rewrite Hmem, !andb_false_r.
      * destruct (decide (k ∈ rest)) as [Hin|Hnin].
        -- rewrite !bool_decide_eq_true_2;
             [done | by apply list_elem_of_further | done].
        -- rewrite !bool_decide_eq_false_2;
             [done | rewrite elem_of_cons; intros [?|?]; done | done].
Qed.

Lemma build_row_Ok_well_formed fields record row :
  build_row fields record = Ok row -> well_formed_record record.
Proof.
  unfold build_row, well_formed_record. intros H.
  destruct (record_values record) as [values|e]; [|done]. cbn [bindR] in H.
  destruct (project_row fields values []) as [row0|e]; [|done].
  cbn [bindR] in H.
  destruct (py_get values "generated_text" VNone) as [gt|e] eqn:Hg; [|done].
  destruct (py_get_Ok_dict _ _ _ _ Hg) as [kvs ->]. by exists kvs.
Qed.

Lemma mapR_Ok_Forall {A B} (f : A -> result B) (xs : list A) (ys : list B) :
  mapR f xs = Ok ys -> Forall (fun x => exists y, f x = Ok y) xs.
Proof.
  intros H. apply mapR_Ok_Forall2 in H.
  induction H; constructor; eauto.
Qed.

Lemma remove_dups_nil_inv (l : list string) : remove_dups l = [] -> l = [].
Proof.
  destruct l as [|x l]; [done|]. intros H.
  assert (Hx : x ∈ remove_dups (x :: l))
    by (apply elem_of_remove_dups, list_elem_of_here).
  rewrite H in Hx. by apply not_elem_of_nil in Hx.
Qed.

End fetcher_rows.

(** X9: a failure that the watermark lookup does not absorb ends the
    fetch before the payload store is asked anything; a failure of the
    payload store is raised as it is. *)
Theorem fetch_failures_propagate :
  forall (W : World) (ds mid : pyval) (props : AssetFieldProfile) (e : exn),
    new_client W = Ok tt ->
    (outcome (get_last_run_date W mid) = Raise e ->
     get_payload_data W ds mid props
       = ([CallGetClient; CallGetClient; CallListRuns mid], Raise e))
    /\ (forall w,
          outcome (get_last_run_date W mid) = Ok w ->
          get_list_of_records W ds (or_none w) 500 = Raise e ->
          get_payload_data W ds mid props
            = ([CallGetClient; CallGetClient; CallListRuns mid;
                CallListRecords ds (or_none w) 500], Raise e)).
Proof.
  intros W ds mid props e Hc.
  pose proof (trace_get_last_run_date W mid Hc) as Ht.
  unfold get_payload_data, _get_client. unfold outcome, trace in *.
  destruct (get_last_run_date W mid) as [t r]. cbn [fst snd] in *. subst t.
  unfold bind, perform. rewrite Hc. split.
  - by intros ->.
  - intros w -> Hl. by rewrite Hl.
Qed.

(** X10: with the watermark read and the listing received, the fetch
    returns a batch exactly when the [entity.values] of every listed
    record is a mapping (or left out): one record that breaks this
    fails the whole fetch, and no partial batch is returned. *)
Theorem fetch_succeeds_iff_records_well_formed :
  forall (W : World) (ds mid : pyval) (props : AssetFieldProfile)
         (w data records : pyval) (items : list pyval),
    new_client W = Ok tt ->
    outcome (get_last_run_date W mid) = Ok w ->
    get_list_of_records W ds (or_none w) 500 = Ok data ->
    py_get data "records" (VList []) = Ok records ->
    py_iter records = Ok items ->
    ((exists df, outcome (get_payload_data W ds mid props) = Ok df)
     <-> Forall well_formed_record items).
Proof.
  intros W ds mid props w data records items Hc Hw Hd Hr Hi.
  assert (Hout : outcome (get_payload_data W ds mid props) =
                 match mapR (build_row (fields props)) items with
                 | Ok rows => Ok {| df_rows := rows |}
                 | Raise e => Raise e
                 end).
  { unfold get_payload_data, _get_client. py_simpl. rewrite Hc. py_simpl.
    rewrite Hw. py_simpl. rewrite Hd. py_simpl. rewrite Hr. py_simpl.
    rewrite Hi. py_simpl. by destruct (mapR _ items). }
  rewrite Hout. split.
  - intros [df Hdf].
    destruct (mapR (build_row (fields props)) items) as [rows|e] eqn:Hm; [|done].
    eapply Forall_impl; [exact (mapR_Ok_Forall _ _ _ Hm)|].
    intros record [row Hrow]. by eapply build_row_Ok_well_formed.
  - intros Hwf.
    destruct (mapR_Forall_Ok (build_row (fields props)) items) as [rows ->].
    { eapply Forall_impl; [exact Hwf|]. intros record.
      apply build_row_well_formed. }
    by eexists.
Qed.

(** X11: the row built from a record holds, under a key [k]: the
    record's [generated_text] (or [None]) when [k] is ["generated_text"];
    the record's own value of [k] when [k] is a profile field the record
    has; and nothing otherwise.  Values are copied, never altered. *)
Theorem row_projection_exact :
  forall (W : World) (ds mid : pyval) (props : AssetFieldProfile) (df : DataFrame),
    outcome (get_payload_data W ds mid props) = Ok df ->
    exists items,
      Forall2
        (fun record row =>
           exists kvs,
             record_values record = Ok (VDict kvs)
             /\ forall k,
                 Dict.get k row =
                   if String.eqb k "generated_text"
                   then Some (match Dict.get "generated_text" kvs with
                              | Some v => v
                              | None => VNone
                              end)
                   else if bool_decide (k ∈ fields props)
                        then Dict.get k kvs
                        else None)
        items (df_rows df).
Proof.
  intros W ds mid props df Hdf.
  destruct (get_payload_data_Ok W ds mid props df Hdf)
    as (w & data & records & items & _ & _ & _ & _ & Hrows).
  exists items. apply mapR_Ok_Forall2 in Hrows.
  eapply Forall2_impl; [exact Hrows|]. clear. intros record row H.
  destruct (build_row_Ok_well_formed _ _ _ H) as [kvs Hv].
  exists kvs. split; [done|]. intros k.
  unfold build_row in H. rewrite Hv in H. cbn [bindR] in H.
  destruct (project_row (fields props) (VDict kvs) []) as [row0|e] eqn:Hp;
    [|done].
  cbn [bindR py_get] in H. injection H as <-.
  destruct (String.eqb_spec k "generated_text") as [->|Hne].
  - by rewrite dict_get_set_eq.
  - rewrite dict_get_set_ne by done.
    rewrite (project_row_get _ _ _ _ Hp k). cbn [Dict.get].
    destruct (bool_decide (k ∈ fields props)); cbn [andb]; [|done].
    unfold Dict.mem. by destruct (Dict.get k kvs).
Qed.

(** X12: the batch has one row per listed record, in the listing's
    order, and it is [empty] exactly when the listing has no record: a
    row always has the [generated_text] column. *)
Theorem batch_empty_iff_no_records :
  forall (W : World) (ds mid : pyval) (props : AssetFieldProfile) (df : DataFrame),
    outcome (get_payload_data W ds mid props) = Ok df ->
    exists w data records items,
      outcome (get_last_run_date W mid) = Ok w
      /\ get_list_of_records W ds (or_none w) 500 = Ok data
      /\ py_get data "records" (VList []) = Ok records
      /\ py_iter records = Ok items
      /\ length (df_rows df) = length items
      /\ (df_empty df = true <-> items = []).
Proof.
  intros W ds mid props df Hdf.
  destruct (get_payload_data_Ok W ds mid props df Hdf)
    as (w & data & records & items & Hw & Hd & Hr & Hi & Hrows).
  exists w, data, records, items. repeat (split; [done|]).
  apply mapR_Ok_Forall2 in Hrows.
  pose proof (Forall2_length _ _ _ Hrows) as Hlen.
  split; [done|]. split.
  - intros Hempty. unfold df_empty, df_columns in Hempty.
    destruct Hrows as [|record row items rows Hrow Hrows]; [done|].
    exfalso. cbn [length Nat.eqb orb] in Hempty.
    apply Nat.eqb_eq, length_zero_iff_nil, remove_dups_nil_inv in Hempty.
    apply build_row_Ok in Hrow as (values & gt & _ & _ & Hgt & _).
    apply dict_get_Some_keys in Hgt.
    cbn [flat_map] in Hempty. apply app_eq_nil in Hempty as [Hk _].
    rewrite Hk in Hgt. by apply not_elem_of_nil in Hgt.
  - intros ->. unfold df_empty.
    destruct (df_rows df) as [|row rows]; [done | by inversion Hrows].
Qed.

(* ===================================================================== *)
(** * Evaluation Engine: the aggregated mapping *)
(* ===================================================================== *)

Section aggregation_keys.

Lemma calc_mean_get records n :
  Dict.get n (_calc_mean records) =
    match values_named n records with
    | [] => None
    | vs => Some (arithmetic_mean vs)
    end.
Proof.
  unfold _calc_mean.
  pose proof (calc_mean_loop_inv records [] ([], [])) as Inv.
  destruct (fold_left calc_mean_step records ([], [])) as [sums counts].
  destruct (Inv (fun _ => conj eq_refl eq_refl) n) as [Hs Hc].
  simpl in Hs, Hc. rewrite mean_comprehension_get. unfold dd_get.
  rewrite Hs, Hc.
  destruct (values_named n records) as [|v vs] eqn:E.
  - rewrite bool_decide_eq_false_2; [done|]. by apply dict_get_None_keys.
  - rewrite bool_decide_eq_true_2 by (eapply dict_get_Some_keys, Hs).
    replace (0 <? Z.of_nat (length (v :: vs)))%Z with true
      by (symmetry; apply Z.ltb_lt; simpl; lia).
    done.
Qed.

Lemma values_named_nonempty records n :
  values_named n records <> [] <->
  exists r v, r ∈ records /\ name r = Some n /\ value r = Some v.
Proof.
  unfold values_named. induction records as [|r records IH]; simpl.
  - split; [done|]. intros (r & v & Hr & _). by apply not_elem_of_nil in Hr.
  - split.
    + intros H.
      destruct (name r) as [n'|] eqn:Hn; [destruct (value r) as [v|] eqn:Hv|].
      * destruct (String.eqb_spec n' n) as [->|Hne].
        { exists r, v. split; [apply list_elem_of_here | done]. }
        apply IH in H as (r' & v' & Hr' & H').
        exists r', v'. split; [by apply list_elem_of_further | done].
      * apply IH in H as (r' & v' & Hr' & H').
        exists r', v'. split; [by apply list_elem_of_further | done].
      * apply IH in H as (r' & v' & Hr' & H').
        exists r', v'. split; [by apply list_elem_of_further | done].
    + intros (r' & v & Hr' & Hn & Hv).
      apply elem_of_cons in Hr' as [->|Hr'].
      * rewrite Hn, Hv, String.eqb_refl. done.
      * intros Happ. apply app_eq_nil in Happ as [_ Hnil].
        apply IH in Hnil; [done|]. by exists r', v.
Qed.

Lemma dict_keys_set_NoDup {V} (d : list (string * V)) k v :
  NoDup (Dict.keys d) -> NoDup (Dict.keys (Dict.set k v d)).
Proof.
  induction d as [|[k0 v0] d IH]; simpl; intros H.
  - apply NoDup_singleton.
  - destruct (String.eqb_spec k k0) as [->|Hne]; simpl; [done|].
    apply NoDup_cons in H as [Hk0 Hd]. apply NoDup_cons. split; [|by apply IH].
    intros Hin. apply dict_keys_set in Hin as [?|?]; [congruence | done].
Qed.

Lemma mean_comprehension_NoDup sums counts :
  NoDup (Dict.keys (mean_comprehension sums counts)).
Proof.
  unfold mean_comprehension.
  assert (G : forall ks (out : list (string * float)),
             NoDup (Dict.keys out) ->
             NoDup (Dict.keys
               (fold_left
                  (fun out name =>
                     if (0 <? dd_get 0%Z name counts)%Z
                     then Dict.set name
                            (PrimFloat.div (dd_get 0%float name sums)
                               (float_of_count (dd_get 0%Z name counts))) out
                     else out) ks out))).
  { induction ks as [|k ks IH]; intros out Hout; [done|]. simpl.
    apply IH. destruct (0 <? dd_get 0%Z k counts)%Z; [|done].
    by apply dict_keys_set_NoDup. }
  apply G. constructor.
Qed.

End aggregation_keys.

(** X13: the aggregated mapping has exactly one entry for every metric
    name borne by at least one sample that has a value, and no other
    entry. *)
Theorem calc_mean_one_entry_per_name :
  forall records : list MetricSample,
    NoDup (Dict.keys (_calc_mean records))
    /\ (forall n,
          n ∈ Dict.keys (_calc_mean records) <->
          exists r v, r ∈ records /\ name r = Some n /\ value r = Some v).
Proof.
  intros records. split.
  - unfold _calc_mean.
    destruct (fold_left calc_mean_step records ([], [])) as [sums counts].
    apply mean_comprehension_NoDup.
  - intros n. rewrite <- values_named_nonempty.
    pose proof (calc_mean_get records n) as Hget. split.
    + intros Hin Hnil. rewrite Hnil in Hget.
      by apply dict_get_None_keys in Hget.
    + intros Hne. destruct (values_named n records) as [|v vs]; [done|].
      eapply dict_get_Some_keys, Hget.
Qed.

(** X14: every entry of the mapping [run_evaluator] returns is the mean
    of the values the evaluator reported under that name, in one
    evaluation made with the configuration [run_evaluator] builds from
    the profile and with its five metrics in their fixed order; on an
    empty result, or an empty batch, the mapping has no entry. *)
Theorem run_evaluator_reports_sample_means :
  forall (W : World) (data : DataFrame) (p : AssetFieldProfile)
         (m : list (string * float)),
    outcome (run_evaluator W data p) = Ok m ->
    (df_empty data = true /\ m = [] /\ trace (run_evaluator W data p) = [])
    \/ (df_empty data = false
        /\ exists samples,
            evaluate W (evaluator_config p) data
              [ AnswerRelevanceMetric; TextReadingEaseMetric; SocialBiasMetric;
                JailbreakMetric; TextGradeLevelMetric ] = Ok samples
            /\ trace (run_evaluator W data p)
               = [ CallNewEvaluator (evaluator_config p);
                   CallEvaluate data
                     [ AnswerRelevanceMetric; TextReadingEaseMetric;
                       SocialBiasMetric; JailbreakMetric; TextGradeLevelMetric ] ]
            /\ (samples = [] -> m = [])
            /\ forall n,
                Dict.get n m =
                  match values_named n samples with
                  | [] => None
                  | vs => Some (arithmetic_mean vs)
                  end).
Proof.
  intros W data p m. unfold run_evaluator.
  destruct (df_empty data) eqn:Hempty.
  - intros H. injection H as <-. by left.
  - intros H. right. split; [done|].
    unfold bind, perform, outcome, trace in *.
    destruct (new_evaluator W (evaluator_config p)) as [[]|e]; [|done].
    destruct (evaluate W (evaluator_config p) data _) as [samples|e]; [|done].
    exists samples. split; [done|].
    destruct samples as [|s samples]; cbn [fst snd ret] in *;
      injection H as <-.
    + by repeat split.
    + repeat split; [done|]. intros n. apply calc_mean_get.
Qed.

(* ===================================================================== *)
(** * From the profile to the evaluator configuration and the batch *)
(* ===================================================================== *)

Section profile_to_config.
Context (W : World).

Lemma config_covers_profile sid p :
  outcome (extract_prompt_fields W sid) = Ok p ->
  (forall x, x ∈ input_fields (evaluator_config p) ->
             x ∉ config_context_fields (evaluator_config p))
  /\ (forall x, x ∈ fields p <->
                x ∈ input_fields (evaluator_config p)
                \/ x ∈ config_context_fields (evaluator_config p)).
Proof.
  intros Hp.
  destruct (extract_prompt_fields_Ok W sid p Hp) as (F & C & [H|H]);
    destruct H as (Hpt & Hf & Hc & Ha);
    unfold evaluator_config, get_context_fields;
    cbn [input_fields config_context_fields];
    rewrite Hpt, Hf, ?Hc, Ha.
  - split; intros x; rewrite !elem_of_sorted; set_solver.
  - split; intros x.
    + intros _. apply not_elem_of_nil.
    + split; [by left|]. intros [?|Hnil]; [done|].
      by apply not_elem_of_nil in Hnil.
Qed.

End profile_to_config.

(** X15: whatever profile the resolver returns, the evaluator
    configuration built from it has disjoint input and context fields,
    which together are the profile's [fields]; its output field is
    [generated_text] and it has no reference field. *)
Theorem evaluator_config_partitions_fields :
  forall (W : World) (sid : pyval) (p : AssetFieldProfile),
    outcome (extract_prompt_fields W sid) = Ok p ->
    (forall x, x ∈ input_fields (evaluator_config p) ->
               x ∉ config_context_fields (evaluator_config p))
    /\ (forall x, x ∈ fields p <->
                  x ∈ input_fields (evaluator_config p)
                  \/ x ∈ config_context_fields (evaluator_config p))
    /\ output_fields (evaluator_config p) = ["generated_text"]
    /\ reference_fields (evaluator_config p) = [].
Proof.
  intros W sid p Hp.
  destruct (config_covers_profile W sid p Hp) as [H1 H2].
  by repeat split; try apply H1; try apply H2.
Qed.

(** X16: every column of the batch fetched for a resolved profile is
    named in the evaluator configuration built from that profile: it is
    an input field, a context field, or the output field. *)
Theorem batch_columns_are_configured :
  forall (W : World) (sid ds mid : pyval) (p : AssetFieldProfile) (df : DataFrame),
    outcome (extract_prompt_fields W sid) = Ok p ->
    outcome (get_payload_data W ds mid p) = Ok df ->
    Forall
      (fun row =>
         forall k, k ∈ Dict.keys row ->
                   k ∈ input_fields (evaluator_config p)
                   \/ k ∈ config_context_fields (evaluator_config p)
                   \/ k ∈ output_fields (evaluator_config p))
      (df_rows df).
Proof.
  intros W sid ds mid p df Hp Hdf.
  destruct (config_covers_profile W sid p Hp) as [_ Hcover].
  destruct (get_payload_data_Ok W ds mid p df Hdf)
    as (w & data & records & items & _ & _ & _ & _ & Hrows).
  apply mapR_Ok_Forall2 in Hrows.
  induction Hrows as [|record row items rows Hrow _ IH]; constructor; [|exact IH].
  intros k Hk. apply build_row_Ok in Hrow as (values & gt & _ & _ & _ & Hkeys).
  destruct (String.eqb_spec k "generated_text") as [->|Hne].
  - right. right. apply list_elem_of_here.
  - destruct (Hkeys k Hk Hne) as [Hfield _].
    apply Hcover in Hfield as [?|?]; [by left | by right; left].
Qed.

(* ===================================================================== *)
(** * The route handler: the three stages end to end *)
(* ===================================================================== *)

Section handler_runs.
Context (W : World).

(** The whole run of the handler on an accepted trigger: the calls made
    and the way it ends. *)
Lemma compute_custom_metric_run request sid mid ds rid :
  accepted_trigger request sid mid ds rid ->
  compute_custom_metric W request =
    match prepare_stage W sid ds mid with
    | (t1, Raise e) => (t1, Raise (HTTPException 500 (str_exn e)))
    | (t1, Ok (prompt_properties, payload_data)) =>
        match evaluate_stage W payload_data prompt_properties with
        | (t2, Raise e) => ((t1 ++ t2)%list, Raise (HTTPException 500 (str_exn e)))
        | (t2, Ok custom_metrics) =>
            match store_metrics W mid rid custom_metrics with
            | (t3, Raise _) =>
                ((t1 ++ t2 ++ t3)%list,
                 Raise (PyExn UnboundLocalError
                          "cannot access local variable 'exc' where it is not associated with a value"))
            | (t3, Ok _) =>
                ((t1 ++ t2 ++ t3)%list, Ok (JSONResponse success_content 200))
            end
        end
    end.
Proof.
  intros (body & input & first & data & Hj & Hi & Ht & Hl & Hf & Hv
          & Hsid & Hmid & Hds & Hrid).
  unfold compute_custom_metric, bind, lift, try_except, raise, ret.
  rewrite Hj. cbn beta iota zeta. rewrite Hi. cbn beta iota zeta.
  rewrite (accepted_input_guard _ Ht Hl). cbn beta iota zeta.
  rewrite Hf. cbn beta iota zeta. rewrite Hv. cbn beta iota zeta.
  rewrite Hsid. cbn beta iota zeta. rewrite Hmid. cbn beta iota zeta.
  rewrite Hds. cbn beta iota zeta. rewrite Hrid. cbn beta iota zeta.
  destruct (prepare_stage W sid ds mid) as [t1 [[pp pd]|e]];
    cbn beta iota zeta delta [fst snd app]; [|by rewrite app_nil_r].
  destruct (evaluate_stage W pd pp) as [t2 [cm|e]];
    cbn beta iota zeta delta [fst snd app]; [|by rewrite app_nil_r].
  destruct (store_metrics W mid rid cm) as [t3 [u|e]];
    cbn beta iota zeta delta [fst snd app load_local];
    by rewrite ?app_nil_r.
Qed.

Lemma store_metrics_Ok mid rid cm u :
  outcome (store_metrics W mid rid cm) = Ok u ->
  store_metrics W mid rid cm
    = ([CallNewMetricsManager; CallStoreMetricData mid rid cm], Ok tt).
Proof.
  unfold store_metrics, try_except, bind, perform, outcome.
  destruct (new_metrics_manager W) as [[]|e]; [|done].
  by destruct (store_metric_data W mid rid cm) as [[]|e].
Qed.

Lemma trace_extract_prompt_fields sid :
  new_client W = Ok tt ->
  trace (extract_prompt_fields W sid) = [CallGetClient; CallSubscriptionsGet sid].
Proof.
  intros Hc. unfold extract_prompt_fields, _get_client.
  py_simpl. rewrite Hc. py_simpl.
  destruct (subscriptions_get W sid) as [payload|e]; py_simpl; [|done].
  destruct (py_getitem payload "entity") as [entity|e]; py_simpl; [|done].
  destruct (py_get entity "asset" (VDict [])) as [asset|e]; py_simpl; [|done].
  destruct (py_get entity "asset_properties" (VDict [])) as [props|e];
    py_simpl; [|done].
  destruct (py_get asset "problem_type" VNone) as [pt|e]; py_simpl; [|done].
  destruct (py_get props "feature_fields" (VList [])) as [ffv|e]; py_simpl;
    [|done].
  destruct (py_set ffv) as [F|e]; py_simpl; [|done].
  destruct (py_eq_str pt RAG); py_simpl; [|done].
  destruct (py_get props "context_fields" (VList [])) as [cfv|e]; py_simpl;
    [|done].
  by destruct (py_set cfv) as [C|e]; py_simpl.
Qed.

End handler_runs.

(** X17: when the trigger is accepted and the three stages succeed, the
    handler answers 200 with the success acknowledgement, and the sink
    is called once, last, with the mapping the evaluation returned and
    the monitor instance and run named by the trigger. *)
Theorem accepted_trigger_succeeds :
  forall (W : World) (request : Request) (sid mid ds rid : pyval)
         (pp : AssetFieldProfile) (pd : DataFrame) (cm : list (string * float)),
    accepted_trigger request sid mid ds rid ->
    outcome (prepare_stage W sid ds mid) = Ok (pp, pd) ->
    outcome (evaluate_stage W pd pp) = Ok cm ->
    outcome (store_metrics W mid rid cm) = Ok tt ->
    compute_custom_metric W request
      = ((trace (prepare_stage W sid ds mid)
          ++ trace (evaluate_stage W pd pp)
          ++ [CallNewMetricsManager; CallStoreMetricData mid rid cm])%list,
         Ok (JSONResponse success_content 200)).
Proof.
  intros W request sid mid ds rid pp pd cm Hacc Hp He Hs.
  rewrite (compute_custom_metric_run W request sid mid ds rid Hacc).
  unfold outcome, trace in *.
  destruct (prepare_stage W sid ds mid) as [t1 r1]. cbn [fst snd] in *. subst r1.
  destruct (evaluate_stage W pd pp) as [t2 r2]. cbn [fst snd] in *. subst r2.
  by rewrite (store_metrics_Ok W mid rid cm tt Hs).
Qed.

(** X18: when preparing the payload fails, the handler raises
    [HTTPException(500)] whose detail is the text of that failure, and
    makes no call beyond those of the preparation: no event loop is
    set, the evaluator is not built and the sink is not called. *)
Theorem prepare_failure_short_circuits :
  forall (W : World) (request : Request) (sid mid ds rid : pyval) (e : exn),
    accepted_trigger request sid mid ds rid ->
    outcome (prepare_stage W sid ds mid) = Raise e ->
    compute_custom_metric W request
      = (trace (prepare_stage W sid ds mid),
         Raise (HTTPException 500 (str_exn e))).
Proof.
  intros W request sid mid ds rid e Hacc Hp.
  rewrite (compute_custom_metric_run W request sid mid ds rid Hacc).
  unfold outcome, trace in *.
  destruct (prepare_stage W sid ds mid) as [t1 r1]. cbn [fst snd] in *.
  by subst r1.
Qed.

(** X19: when the evaluation fails, the handler raises
    [HTTPException(500)] whose detail is the text of that failure, and
    the sink is not called. *)
Theorem evaluate_failure_short_circuits :
  forall (W : World) (request : Request) (sid mid ds rid : pyval)
         (pp : AssetFieldProfile) (pd : DataFrame) (e : exn),
    accepted_trigger request sid mid ds rid ->
    outcome (prepare_stage W sid ds mid) = Ok (pp, pd) ->
    outcome (evaluate_stage W pd pp) = Raise e ->
    compute_custom_metric W request
      = ((trace (prepare_stage W sid ds mid)
          ++ trace (evaluate_stage W pd pp))%list,
         Raise (HTTPException 500 (str_exn e))).
Proof.
  intros W request sid mid ds rid pp pd e Hacc Hp He.
  rewrite (compute_custom_metric_run W request sid mid ds rid Hacc).
  unfold outcome, trace in *.
  destruct (prepare_stage W sid ds mid) as [t1 r1]. cbn [fst snd] in *. subst r1.
  destruct (evaluate_stage W pd pp) as [t2 r2]. cbn [fst snd] in *.
  by subst r2.
Qed.

(** X20: when the fetched batch is empty the evaluator is neither built
    nor invoked, the sink still receives a mapping, the empty one, and
    the handler answers 200. *)
Theorem empty_batch_is_reported_empty :
  forall (W : World) (request : Request) (sid mid ds rid : pyval)
         (pp : AssetFieldProfile) (pd : DataFrame),
    accepted_trigger request sid mid ds rid ->
    outcome (prepare_stage W sid ds mid) = Ok (pp, pd) ->
    df_empty pd = true ->
    new_metrics_manager W = Ok tt ->
    store_metric_data W mid rid [] = Ok tt ->
    compute_custom_metric W request
      = ((trace (prepare_stage W sid ds mid)
          ++ [CallSetEventLoopPolicy; CallNewEventLoop;
              CallNewMetricsManager; CallStoreMetricData mid rid []])%list,
         Ok (JSONResponse success_content 200)).
Proof.
  intros W request sid mid ds rid pp pd Hacc Hp Hempty Hm Hs.
  rewrite (compute_custom_metric_run W request sid mid ds rid Hacc).
  unfold outcome, trace in *.
  destruct (prepare_stage W sid ds mid) as [t1 r1]. cbn [fst snd] in *. subst r1.
  unfold evaluate_stage, run_in_thread, run_evaluator. rewrite Hempty.
  unfold store_metrics, try_except, bind, perform, ret. by rewrite Hm, Hs.
Qed.

(** X21: the only response the handler ever returns is the success
    acknowledgement with status 200, and the only statuses it raises
    through [HTTPException] are 400 and 500. *)
Theorem handler_outcomes :
  forall (W : World) (request : Request),
    (forall response,
        outcome (compute_custom_metric W request) = Ok response ->
        response = JSONResponse success_content 200)
    /\ (forall status detail,
          outcome (compute_custom_metric W request)
            = Raise (HTTPException status detail) ->
          status = 400%Z \/ status = 500%Z).
Proof.
  intros W request.
  destruct (compute_custom_metric_cases W request)
    as [[e Hj]|[(body & c & msg & Hj & Ho)|[(body & v & Hj & Hi & Hv)|Hacc]]].
  - rewrite (compute_custom_metric_invalid_json W request e Hj).
    split; [done|]. intros status detail H. injection H as <- _. by left.
  - rewrite Ho. by split.
  - rewrite (compute_custom_metric_bad_input W request body v Hj Hi Hv).
    split; [done|]. intros status detail H. injection H as <- _. by left.
  - destruct Hacc as (sid & mid & ds & rid & Hacc).
    rewrite (compute_custom_metric_accepted W request sid mid ds rid Hacc).
    destruct (outcome (prepare_stage W sid ds mid)) as [[pp pd]|e].
    2:{ split; [done|]. intros status detail H. injection H as <- _. by right. }
    destruct (outcome (evaluate_stage W pd pp)) as [cm|e].
    2:{ split; [done|]. intros status detail H. injection H as <- _. by right. }
    destruct (outcome (store_metrics W mid rid cm)); split; try done.
    intros response H. by injection H as <-.
Qed.

(** X22: the handler reads the four identifiers of the first
    [input_data] entry and nothing else of the request: two accepted
    triggers that agree on them make the same calls and end the same
    way, whatever further entries and keys they carry. *)
Theorem handler_reads_first_entry_only :
  forall (W : World) (request request' : Request) (sid mid ds rid : pyval),
    accepted_trigger request sid mid ds rid ->
    accepted_trigger request' sid mid ds rid ->
    compute_custom_metric W request = compute_custom_metric W request'.
Proof.
  intros W request request' sid mid ds rid Hacc Hacc'.
  by rewrite (compute_custom_metric_run W request sid mid ds rid Hacc),
             (compute_custom_metric_run W request' sid mid ds rid Hacc').
Qed.

(** X23: a body that is valid JSON but not an object is not answered
    400: reading [input_data] from it raises [AttributeError], which
    leaves the handler before any service is called. *)
Theorem non_object_body_is_not_rejected :
  forall (W : World) (request : Request) (body : pyval),
    json request = Ok body ->
    (forall kvs, body <> VDict kvs) ->
    compute_custom_metric W request = ([], Raise (no_attribute body "get")).
Proof.
  intros W request body Hj Hne. unfold compute_custom_metric.
  rewrite Hj. unfold try_except, bind, lift.
  destruct body; try done. by destruct (Hne kvs).
Qed.

(** X24: identifiers that the trigger's ["values"] does not name are
    read as [None] and passed on: the trigger is accepted, and with no
    [subscription_id] the subscription registry is asked for the
    subscription [None]. *)
Theorem missing_identifiers_are_passed_as_none :
  forall (W : World) (request : Request) (body first : pyval)
         (rest : list pyval) (values : list (string * pyval)),
    json request = Ok body ->
    py_get body "input_data" VNone = Ok (VList (first :: rest)) ->
    py_get first "values" VNone = Ok (VDict values) ->
    Dict.get "subscription_id" values = None ->
    new_client W = Ok tt ->
    exists mid ds rid calls,
      accepted_trigger request VNone mid ds rid
      /\ trace (compute_custom_metric W request)
         = CallGetClient :: CallSubscriptionsGet VNone :: calls.
Proof.
  intros W request body first rest values Hj Hi Hv Hsid Hc.
  assert (Hacc : accepted_trigger request VNone
                   (match Dict.get "custom_monitor_instance_id" values with
                    | Some x => x | None => VNone end)
                   (match Dict.get "payload_dataset_id" values with
                    | Some x => x | None => VNone end)
                   (match Dict.get "custom_monitor_run_id" values with
                    | Some x => x | None => VNone end)).
  { exists body, (VList (first :: rest)), first, (VDict values).
    repeat split; try done. cbn [py_get]. by rewrite Hsid. }
  assert (Htrace : exists calls,
             trace (compute_custom_metric W request)
               = CallGetClient :: CallSubscriptionsGet VNone :: calls).
  { rewrite (compute_custom_metric_run W request _ _ _ _ Hacc).
    pose proof (trace_extract_prompt_fields W VNone Hc) as Ht.
    unfold prepare_stage. unfold bind at 1. unfold trace in Ht.
    destruct (extract_prompt_fields W VNone) as [t [p|e]]; cbn [fst] in Ht;
      subst t; [|by eexists].
    destruct (bind _ _) as [t' [[pp pd]|e]]; [|by eexists].
    destruct (evaluate_stage W pd pp) as [t2 [cm|e]]; [|by eexists].
    destruct (store_metrics W _ _ cm) as [t3 [u|e]]; by eexists. }
  destruct Htrace as [calls Htrace].
  eexists _, _, _, calls. split; [exact Hacc | exact Htrace].
Qed.

(* ===================================================================== *)
(** * Worked examples for the further properties *)
(* ===================================================================== *)

Lemma subscription_structure_errors_witness :
  outcome (extract_prompt_fields
             (Scenario.with_subscription_answer
                (Ok Scenario.payload_without_entity) Demo.world) (VStr "sub-1"))
    = Raise (PyExn RuntimeError "Invalid subscription payload structure")
  /\ outcome (extract_prompt_fields
                (Scenario.with_subscription_answer
                   (Ok Scenario.payload_null_asset_properties) Demo.world)
                (VStr "sub-1"))
     = Raise (PyExn AttributeError "'NoneType' object has no attribute 'get'").
Proof.
  split.
  - apply (proj1 (subscription_structure_errors
                    (Scenario.with_subscription_answer
                       (Ok Scenario.payload_without_entity) Demo.world)
                    (VStr "sub-1") Scenario.payload_without_entity
                    eq_refl eq_refl) (PyExn KeyError "'entity'")).
    reflexivity.
  - apply (proj2 (proj2 (proj2 (subscription_structure_errors
                    (Scenario.with_subscription_answer
                       (Ok Scenario.payload_null_asset_properties) Demo.world)
                    (VStr "sub-1") Scenario.payload_null_asset_properties
                    eq_refl eq_refl)))
             [("asset", VDict [("problem_type", VStr RAG)]);
              ("asset_properties", VNone)]
             [("problem_type", VStr RAG)] VNone); try reflexivity.
    intros props. discriminate.
Defined.

Lemma subscription_lookup_failure_witness :
  extract_prompt_fields
    (Scenario.with_client (Raise Scenario.service_error) Demo.world) (VStr "sub-1")
    = ([CallGetClient], Raise Scenario.service_error)
  /\ extract_prompt_fields
       (Scenario.with_subscription_answer (Raise Scenario.service_error) Demo.world)
       (VStr "sub-1")
     = ([CallGetClient; CallSubscriptionsGet (VStr "sub-1")],
        Raise Scenario.service_error).
Proof.
  split.
  - apply (proj1 (subscription_lookup_failure_is_not_wrapped
                    (Scenario.with_client (Raise Scenario.service_error) Demo.world)
                    (VStr "sub-1") Scenario.service_error)). reflexivity.
  - apply (proj2 (subscription_lookup_failure_is_not_wrapped
                    (Scenario.with_subscription_answer
                       (Raise Scenario.service_error) Demo.world)
                    (VStr "sub-1") Scenario.service_error)); reflexivity.
Defined.

Lemma non_rag_ignores_context_fields_witness :
  exists p,
    outcome (extract_prompt_fields
               (Demo.with_subscription Scenario2.plain_with_context Demo.world)
               (VStr "sub-3")) = Ok p
    /\ problem_type p = VStr "generation"
    /\ context_fields p = None
    /\ (forall x, x ∈ feature_fields p <-> x ∈ ["question"; "context"])
    /\ NoDup (feature_fields p)
    /\ Sorted str_le (feature_fields p).
Proof.
  apply (non_rag_ignores_context_fields
           (Demo.with_subscription Scenario2.plain_with_context Demo.world)
           (VStr "sub-3") (VStr "generation")
           ["question"; "context"] ["context"]); reflexivity.
Defined.

Lemma bare_subscription_resolves :
  outcome (extract_prompt_fields
             (Demo.with_subscription Scenario.payload_bare Demo.world)
             (VStr "sub-4")) = Ok Scenario2.bare_profile.
Proof. vm_compute. reflexivity. Defined.

Lemma missing_field_lists_witness :
  feature_fields Scenario2.bare_profile = []
  /\ context_fields Scenario2.bare_profile = Some []
  /\ fields Scenario2.bare_profile = feature_fields Scenario2.bare_profile.
Proof.
  destruct (missing_field_lists_default_to_empty
              (Demo.with_subscription Scenario.payload_bare Demo.world)
              (VStr "sub-4") Scenario2.bare_profile Scenario.payload_bare
              (VDict [("asset", VDict [("problem_type", VStr RAG)])]) []
              bare_subscription_resolves eq_refl eq_refl eq_refl) as [H1 H2].
  split; [exact (H1 eq_refl) | exact (H2 eq_refl eq_refl)].
Defined.

Lemma first_finished_witness :
  outcome (get_last_run_date Demo.world (VStr "mon-1"))
    = Ok (VStr "2024-05-02T09:00:00Z").
Proof.
  apply (watermark_is_first_finished_in_listing_order Demo.world (VStr "mon-1")
           [ {| run_state := Some "running";
                run_created_at := Some "2024-05-03T09:00:00Z" |} ]
           [ {| run_state := Some "finished";
                run_created_at := Some "2024-05-01T09:00:00Z" |} ]
           {| run_state := Some "finished";
              run_created_at := Some "2024-05-02T09:00:00Z" |});
    try reflexivity.
  constructor; [reflexivity | constructor].
Defined.

Lemma malformed_run_witness :
  outcome (get_last_run_date
             (Demo.with_runs (Ok Scenario2.runs_with_null) Demo.world)
             (VStr "mon-1")) = Ok (VStr "").
Proof.
  eapply (malformed_run_discards_watermark
            (Demo.with_runs (Ok Scenario2.runs_with_null) Demo.world)
            (VStr "mon-1") Scenario2.runs_with_null); try reflexivity.
  apply Exists_cons_tl, Exists_cons_hd. intros kvs. discriminate.
Defined.

Lemma watermark_lookup_failures_witness :
  KeyError <> IndexError /\ KeyError <> AttributeError.
Proof.
  apply (proj1 (watermark_lookup_failures
                  (Demo.with_runs (Ok (VDict [])) Demo.world) (VStr "mon-1"))
           KeyError "'runs'"). reflexivity.
Defined.

Lemma fetch_failures_witness :
  get_payload_data (Demo.with_runs (Raise Demo.connection_error) Demo.world)
    (VStr "ds-1") (VStr "mon-1") Scenario.rag_profile
    = ([CallGetClient; CallGetClient; CallListRuns (VStr "mon-1")],
       Raise Demo.connection_error)
  /\ get_payload_data (Scenario.with_records (Raise Scenario.service_error) Demo.world)
       (VStr "ds-1") (VStr "mon-1") Scenario.rag_profile
     = ([CallGetClient; CallGetClient; CallListRuns (VStr "mon-1");
         CallListRecords (VStr "ds-1") (VStr "2024-05-02T09:00:00Z") 500],
        Raise Scenario.service_error).
Proof.
  split.
  - apply (proj1 (fetch_failures_propagate
                    (Demo.with_runs (Raise Demo.connection_error) Demo.world)
                    (VStr "ds-1") (VStr "mon-1") Scenario.rag_profile
                    Demo.connection_error eq_refl)). reflexivity.
  - apply (proj2 (fetch_failures_propagate
                    (Scenario.with_records (Raise Scenario.service_error) Demo.world)
                    (VStr "ds-1") (VStr "mon-1") Scenario.rag_profile
                    Scenario.service_error eq_refl)
             (VStr "2024-05-02T09:00:00Z")); reflexivity.
Defined.

Lemma fetch_succeeds_witness :
  (exists df,
      outcome (get_payload_data Demo.world (VStr "ds-1") (VStr "mon-1")
                 Scenario.rag_profile) = Ok df)
  <-> Forall well_formed_record Demo.records.
Proof.
  apply (fetch_succeeds_iff_records_well_formed Demo.world
           (VStr "ds-1") (VStr "mon-1") Scenario.rag_profile
           (VStr "2024-05-02T09:00:00Z")
           (VDict [("records", VList Demo.records)]) (VList Demo.records)
           Demo.records); reflexivity.
Defined.

Lemma demo_fetch :
  outcome (get_payload_data Demo.world (VStr "ds-1") (VStr "mon-1")
             Scenario.rag_profile) = Ok Scenario.batch.
Proof. vm_compute. reflexivity. Defined.

Lemma demo_resolve :
  outcome (extract_prompt_fields Demo.world (VStr "sub-1")) = Ok Scenario.rag_profile.
Proof. vm_compute. reflexivity. Defined.

Lemma row_projection_witness :
  exists items,
    Forall2
      (fun record row =>
         exists kvs,
           record_values record = Ok (VDict kvs)
           /\ forall k,
               Dict.get k row =
                 if String.eqb k "generated_text"
                 then Some (match Dict.get "generated_text" kvs with
                            | Some v => v
                            | None => VNone
                            end)
                 else if bool_decide (k ∈ fields Scenario.rag_profile)
                      then Dict.get k kvs
                      else None)
      items (df_rows Scenario.batch).
Proof.
  exact (row_projection_exact Demo.world (VStr "ds-1") (VStr "mon-1")
           Scenario.rag_profile Scenario.batch demo_fetch).
Defined.

Lemma batch_empty_witness :
  exists w data records items,
    outcome (get_last_run_date Demo.world (VStr "mon-1")) = Ok w
    /\ get_list_of_records Demo.world (VStr "ds-1") (or_none w) 500 = Ok data
    /\ py_get data "records" (VList []) = Ok records
    /\ py_iter records = Ok items
    /\ length (df_rows Scenario.batch) = length items
    /\ (df_empty Scenario.batch = true <-> items = []).
Proof.
  exact (batch_empty_iff_no_records Demo.world (VStr "ds-1") (VStr "mon-1")
           Scenario.rag_profile Scenario.batch demo_fetch).
Defined.

Lemma demo_evaluate :
  outcome (run_evaluator Demo.world Scenario.batch Scenario.rag_profile)
    = Ok Scenario2.example_means.
Proof. vm_compute. reflexivity. Defined.

Lemma run_evaluator_witness :
  df_empty Scenario.batch = false
  /\ forall n,
      Dict.get n Scenario2.example_means =
        match values_named n example_samples with
        | [] => None
        | vs => Some (arithmetic_mean vs)
        end.
Proof.
  destruct (run_evaluator_reports_sample_means Demo.world Scenario.batch
              Scenario.rag_profile Scenario2.example_means demo_evaluate)
    as [(Hempty & _)|(Hne & samples & Hs & _ & _ & Hget)].
  - discriminate Hempty.
  - split; [exact Hne|]. injection Hs as <-. exact Hget.
Defined.

Lemma evaluator_config_witness :
  (forall x, x ∈ input_fields (evaluator_config Scenario.rag_profile) ->
             x ∉ config_context_fields (evaluator_config Scenario.rag_profile))
  /\ (forall x, x ∈ fields Scenario.rag_profile <->
                x ∈ input_fields (evaluator_config Scenario.rag_profile)
                \/ x ∈ config_context_fields (evaluator_config Scenario.rag_profile))
  /\ output_fields (evaluator_config Scenario.rag_profile) = ["generated_text"]
  /\ reference_fields (evaluator_config Scenario.rag_profile) = [].
Proof.
  exact (evaluator_config_partitions_fields Demo.world (VStr "sub-1")
           Scenario.rag_profile demo_resolve).
Defined.

Lemma batch_columns_witness :
  Forall
    (fun row =>
       forall k, k ∈ Dict.keys row ->
                 k ∈ input_fields (evaluator_config Scenario.rag_profile)
                 \/ k ∈ config_context_fields (evaluator_config Scenario.rag_profile)
                 \/ k ∈ output_fields (evaluator_config Scenario.rag_profile))
    (df_rows Scenario.batch).
Proof.
  exact (batch_columns_are_configured Demo.world (VStr "sub-1") (VStr "ds-1")
           (VStr "mon-1") Scenario.rag_profile Scenario.batch
           demo_resolve demo_fetch).
Defined.

Lemma demo_prepare :
  outcome (prepare_stage Demo.world (VStr "sub-1") (VStr "ds-1") (VStr "mon-1"))
    = Ok (Scenario.rag_profile, Scenario.batch).
Proof. vm_compute. reflexivity. Defined.

Lemma demo_evaluate_stage :
  outcome (evaluate_stage Demo.world Scenario.batch Scenario.rag_profile)
    = Ok Scenario2.example_means.
Proof. vm_compute. reflexivity. Defined.

Lemma accepted_trigger_succeeds_witness :
  compute_custom_metric Demo.world Demo.request
    = ((trace (prepare_stage Demo.world (VStr "sub-1") (VStr "ds-1") (VStr "mon-1"))
        ++ trace (evaluate_stage Demo.world Scenario.batch Scenario.rag_profile)
        ++ [CallNewMetricsManager;
            CallStoreMetricData (VStr "mon-1") (VStr "run-1")
              Scenario2.example_means])%list,
       Ok (JSONResponse success_content 200)).
Proof.
  apply (accepted_trigger_succeeds Demo.world Demo.request
           (VStr "sub-1") (VStr "mon-1") (VStr "ds-1") (VStr "run-1")
           Scenario.rag_profile Scenario.batch Scenario2.example_means
           demo_trigger_accepted demo_prepare demo_evaluate_stage).
  reflexivity.
Defined.

Lemma prepare_failure_witness :
  compute_custom_metric
    (Scenario.with_subscription_answer (Raise Scenario.service_error) Demo.world)
    Demo.request
    = ([CallGetClient; CallSubscriptionsGet (VStr "sub-1")],
       Raise (HTTPException 500 "service unavailable")).
Proof.
  apply (prepare_failure_short_circuits
           (Scenario.with_subscription_answer (Raise Scenario.service_error)
              Demo.world)
           Demo.request (VStr "sub-1") (VStr "mon-1") (VStr "ds-1") (VStr "run-1")
           Scenario.service_error demo_trigger_accepted).
  reflexivity.
Defined.

Lemma demo_prepare_failing_evaluator :
  outcome (prepare_stage
             (Scenario.with_evaluator (Ok tt) (Raise Scenario.service_error)
                Demo.world)
             (VStr "sub-1") (VStr "ds-1") (VStr "mon-1"))
    = Ok (Scenario.rag_profile, Scenario.batch).
Proof. vm_compute. reflexivity. Defined.

Lemma evaluate_failure_witness :
  compute_custom_metric
    (Scenario.with_evaluator (Ok tt) (Raise Scenario.service_error) Demo.world)
    Demo.request
    = ((trace (prepare_stage
                 (Scenario.with_evaluator (Ok tt) (Raise Scenario.service_error)
                    Demo.world)
                 (VStr "sub-1") (VStr "ds-1") (VStr "mon-1"))
        ++ trace (evaluate_stage
                    (Scenario.with_evaluator (Ok tt) (Raise Scenario.service_error)
                       Demo.world)
                    Scenario.batch Scenario.rag_profile))%list,
       Raise (HTTPException 500 "service unavailable")).
Proof.
  apply (evaluate_failure_short_circuits
           (Scenario.with_evaluator (Ok tt) (Raise Scenario.service_error)
              Demo.world)
           Demo.request (VStr "sub-1") (VStr "mon-1") (VStr "ds-1") (VStr "run-1")
           Scenario.rag_profile Scenario.batch Scenario.service_error
           demo_trigger_accepted demo_prepare_failing_evaluator).
  reflexivity.
Defined.

Lemma demo_prepare_no_records :
  outcome (prepare_stage
             (Scenario.with_records (Ok Scenario2.no_records) Demo.world)
             (VStr "sub-1") (VStr "ds-1") (VStr "mon-1"))
    = Ok (Scenario.rag_profile, {| df_rows := [] |}).
Proof. vm_compute. reflexivity. Defined.

Lemma empty_batch_witness :
  compute_custom_metric
    (Scenario.with_records (Ok Scenario2.no_records) Demo.world) Demo.request
    = ((trace (prepare_stage
                 (Scenario.with_records (Ok Scenario2.no_records) Demo.world)
                 (VStr "sub-1") (VStr "ds-1") (VStr "mon-1"))
        ++ [CallSetEventLoopPolicy; CallNewEventLoop;
            CallNewMetricsManager;
            CallStoreMetricData (VStr "mon-1") (VStr "run-1") []])%list,
       Ok (JSONResponse success_content 200)).
Proof.
  apply (empty_batch_is_reported_empty
           (Scenario.with_records (Ok Scenario2.no_records) Demo.world)
           Demo.request (VStr "sub-1") (VStr "mon-1") (VStr "ds-1") (VStr "run-1")
           Scenario.rag_profile {| df_rows := [] |}
           demo_trigger_accepted demo_prepare_no_records);
    reflexivity.
Defined.

Lemma demo_success :
  outcome (compute_custom_metric Demo.world Demo.request)
    = Ok {| content := success_content; response_status := 200 |}.
Proof. vm_compute. reflexivity. Defined.

Lemma handler_outcomes_witness :
  exists response,
    outcome (compute_custom_metric Demo.world Demo.request) = Ok response
    /\ response = JSONResponse success_content 200.
Proof.
  exists {| content := success_content; response_status := 200 |}.
  split; [exact demo_success|].
  exact (proj1 (handler_outcomes Demo.world Demo.request) _ demo_success).
Defined.

Lemma extras_trigger_accepted :
  accepted_trigger Scenario.request_with_extras
    (VStr "sub-1") (VStr "mon-1") (VStr "ds-1") (VStr "run-1").
Proof.
  unfold accepted_trigger.
  eexists _, _, _, _. repeat split; reflexivity.
Defined.

Lemma handler_reads_first_entry_witness :
  compute_custom_metric Demo.world Demo.request
    = compute_custom_metric Demo.world Scenario.request_with_extras.
Proof.
  exact (handler_reads_first_entry_only Demo.world Demo.request
           Scenario.request_with_extras
           (VStr "sub-1") (VStr "mon-1") (VStr "ds-1") (VStr "run-1")
           demo_trigger_accepted extras_trigger_accepted).
Defined.

Lemma non_object_body_witness :
  compute_custom_metric Demo.world Scenario.request_array_body
    = ([], Raise (PyExn AttributeError "'list' object has no attribute 'get'")).
Proof.
  apply (non_object_body_is_not_rejected Demo.world Scenario.request_array_body
           (VList [VDict [("values", Demo.trigger_values)]])).
  - reflexivity.
  - intros kvs. discriminate.
Defined.

Lemma missing_identifiers_witness :
  exists mid ds rid calls,
    accepted_trigger Scenario.request_without_identifiers VNone mid ds rid
    /\ trace (compute_custom_metric Demo.world Scenario.request_without_identifiers)
       = CallGetClient :: CallSubscriptionsGet VNone :: calls.
Proof.
  apply (missing_identifiers_are_passed_as_none Demo.world
           Scenario.request_without_identifiers
           (VDict [("input_data", VList [VDict [("values", VDict [])]])])
           (VDict [("values", VDict [])]) [] []); reflexivity.
Defined.
